(** * The CloneSet canary controller of flagger (pkg/canary)

    A shallow embedding of [cloneset_controller.go] and of the readiness
    half of the package ([IsPrimaryReady], [IsCanaryReady],
    [isCloneSetReady], [getCloneSetCondition]).

    Go values are modelled as follows.
    - [map[string]string] is [option (gmap string string)]: [None] is the
      nil map, [Some ∅] a map that was made and is empty.
    - [*int32] is [option Int32Ptr]; a pointer is the address of a cell
      together with the cell's content, and [==] on pointers compares
      addresses only.
    - [error] is [option error] ([None] is nil); [fmt.Errorf] keeps its format
      string, its printed arguments and the error given to [%w] / [%v].
    - the kruise client is a state: the objects held by the API, a script of
      injected request failures, the log of requests and the allocator of the
      Go heap.  A nil dereference is a panic of the state monad. *)

From Stdlib Require Import ZArith String List Bool.
From stdpp Require Import base option gmap strings list.

Local Open Scope Z_scope.
Local Open Scope string_scope.

(** ** Go values *)

Definition gomap : Type := option (gmap string string).

Definition go_lookup (k : string) (m : gomap) : option string :=
  match m with
  | None => None
  | Some g => g !! k
  end.

(** [delete(m, k)]: no effect on a nil map. *)
Definition go_delete (k : string) (m : gomap) : gomap :=
  match m with
  | None => None
  | Some g => Some (delete k g)
  end.

(** The entries of a map, nil and empty read alike ([for k, v := range m]). *)
Definition go_entries (m : gomap) : gmap string string :=
  match m with
  | None => ∅
  | Some g => g
  end.

Record Int32Ptr : Type := mkInt32Ptr { addr : nat; pointee : Z }.

(** [p == q] on two [*int32]. *)
Definition ptr_eq (p q : option Int32Ptr) : bool :=
  match p, q with
  | None, None => true
  | Some a, Some b => Nat.eqb (addr a) (addr b)
  | _, _ => false
  end.

Definition wrap32 (z : Z) : Z := (z + 2 ^ 31) mod 2 ^ 32 - 2 ^ 31.
Definition wrap64 (z : Z) : Z := (z + 2 ^ 63) mod 2 ^ 64 - 2 ^ 63.

(** ** Errors *)

Inductive StatusReason : Type :=
| ReasonNotFound
| ReasonAlreadyExists
| ReasonBadRequest
| ReasonConflict
| ReasonServerTimeout
| ReasonInternalError
| ReasonForbidden.

Inductive fmtArg : Type :=
| AStr (s : string)
| AQuoted (s : string)
| AInt (n : Z)
| AStrs (l : list string).

(** [Errorf] is a [fmt.Errorf] without an error among its arguments,
    [Wrapf] one whose last verb ([%w], once [%v]) prints the error [cause]. *)
Inductive error : Type :=
| StatusError (reason : StatusReason)
| Errorf (format : string) (args : list fmtArg)
| Wrapf (format : string) (args : list fmtArg) (cause : error).

(** [errors.IsNotFound], applied in this package to what the client returned. *)
Definition IsNotFound (err : option error) : bool :=
  match err with
  | Some (StatusError ReasonNotFound) => true
  | _ => false
  end.

(** ** API objects *)

Record OwnerReference : Type := {
  OwnerAPIVersion : string;
  OwnerKind : string;
  OwnerName : string;
  OwnerController : bool;
  OwnerBlockDeletion : bool
}.

Record ObjectMeta : Type := {
  Name : string;
  Namespace : string;
  Generation : Z;
  Labels : gomap;
  Annotations : gomap;
  OwnerReferences : list OwnerReference
}.

Record LabelSelector : Type := { MatchLabels : gomap }.

Record Container : Type := { ContainerName : string; ContainerPorts : list (string * Z) }.

Record PodSpec : Type := {
  NodeSelector : gomap;
  Containers : list Container
}.

Record PodTemplateSpec : Type := {
  TemplateMeta : ObjectMeta;
  TemplateSpec : PodSpec
}.

Record CloneSetUpdateStrategy : Type := {
  Type_ : string;
  Partition : option Z;
  Paused : bool
}.

Record CloneSetSpec : Type := {
  Replicas : option Int32Ptr;
  Selector : option LabelSelector;
  Template : PodTemplateSpec;
  UpdateStrategy : CloneSetUpdateStrategy;
  MinReadySeconds : Z;
  RevisionHistoryLimit : option Z
}.

Record CloneSetStatus : Type := {
  ObservedGeneration : Z;
  StatusReplicas : Z;
  UpdatedReplicas : Z;
  AvailableReplicas : Z
}.

Record CloneSet : Type := {
  Meta : ObjectMeta;
  Spec : CloneSetSpec;
  Status : CloneSetStatus
}.

Record CloneSetCondition : Type := {
  CondStatus : string;
  CondReason : string;
  LastTransitionTime : Z
}.

(** kruise-api, apps/v1alpha1: the update strategy type that deletes and
    recreates pods. *)
Definition RecreateCloneSetUpdateStrategyType : string := "ReCreate".

(** The rollout descriptor.  [SkipAnalysis] and [ProgressDeadlineSeconds]
    hold what the methods [cd.SkipAnalysis()] and
    [cd.GetProgressDeadlineSeconds()] return. *)
Record Canary : Type := {
  CanaryName : string;
  CanaryNamespace : string;
  TargetRefName : string;
  Phase : string;
  SkipAnalysis : bool;
  ProgressDeadlineSeconds : Z;
  PortDiscovery : bool;
  LastAppliedSpec : string
}.

(** Modelled from the spec: the phase constant of the canary API, declared
    outside these two files; section 3 of the specification lists the phases,
    the empty one and [Initializing] first. *)
Definition CanaryPhaseInitializing : string := "Initializing".

(** Field assignments on a copy. *)

Definition set_NodeSelector (m : gomap) (o : CloneSet) : CloneSet :=
  {| Meta := Meta o;
     Spec := {| Replicas := Replicas (Spec o);
                Selector := Selector (Spec o);
                Template := {| TemplateMeta := TemplateMeta (Template (Spec o));
                               TemplateSpec := {| NodeSelector := m;
                                                  Containers := Containers (TemplateSpec (Template (Spec o))) |} |};
                UpdateStrategy := UpdateStrategy (Spec o);
                MinReadySeconds := MinReadySeconds (Spec o);
                RevisionHistoryLimit := RevisionHistoryLimit (Spec o) |};
     Status := Status o |}.

Definition set_Replicas (p : option Int32Ptr) (o : CloneSet) : CloneSet :=
  {| Meta := Meta o;
     Spec := {| Replicas := p;
                Selector := Selector (Spec o);
                Template := Template (Spec o);
                UpdateStrategy := UpdateStrategy (Spec o);
                MinReadySeconds := MinReadySeconds (Spec o);
                RevisionHistoryLimit := RevisionHistoryLimit (Spec o) |};
     Status := Status o |}.

Definition set_NodeSelector_pod (m : gomap) (p : PodSpec) : PodSpec :=
  {| NodeSelector := m; Containers := Containers p |}.

Definition node_selector (o : CloneSet) : gomap :=
  NodeSelector (TemplateSpec (Template (Spec o))).

(** ** The kruise client *)

Inductive Action : Type :=
| GetAction (ns name : string)
| CreateAction (ns : string) (obj : CloneSet)
| UpdateAction (ns : string) (obj : CloneSet).

(** [objects]: what the API holds, an object per namespace and name (the
    first one counts).  [faults]: one entry per coming request, [Some r] makes
    that request fail with reason [r] whatever the objects are; the reasons of
    an injected failure are those of [Fault], which has neither not-found nor
    already-exists: these two come from the objects alone.  [actions]: the
    requests made, the latest first.  [next]: the next free heap address.
    [clock]: what [time.Now()] reads, in nanoseconds. *)
Inductive Fault : Type :=
| FConflict
| FServerTimeout
| FInternalError
| FForbidden.

Definition fault_reason (f : Fault) : StatusReason :=
  match f with
  | FConflict => ReasonConflict
  | FServerTimeout => ReasonServerTimeout
  | FInternalError => ReasonInternalError
  | FForbidden => ReasonForbidden
  end.

Record Cluster : Type := {
  objects : list CloneSet;
  faults : list (option Fault);
  actions : list Action;
  next : nat;
  clock : Z
}.

Inductive outcome (A : Type) : Type :=
| Returned (a : A)
| Panicked.
Arguments Returned {A} a.
Arguments Panicked {A}.

Definition M (A : Type) : Type := Cluster -> outcome A * Cluster.

Definition ret {A} (a : A) : M A := fun w => (Returned a, w).

Definition bind {A B} (m : M A) (k : A -> M B) : M B :=
  fun w =>
    match m w with
    | (Returned a, w') => k a w'
    | (Panicked, w') => (Panicked, w')
    end.

Definition panic {A} : M A := fun w => (Panicked, w).

Notation "x <- m ;; k" := (bind m (fun x => k))
  (at level 100, m at next level, right associativity).

Definition same_object (ns name : string) (o : CloneSet) : bool :=
  String.eqb (Namespace (Meta o)) ns && String.eqb (Name (Meta o)) name.

Definition lookup_object (ns name : string) (l : list CloneSet) : option CloneSet :=
  find (same_object ns name) l.

Fixpoint replace_object (o : CloneSet) (l : list CloneSet) : list CloneSet :=
  match l with
  | [] => []
  | x :: r =>
      if same_object (Namespace (Meta o)) (Name (Meta o)) x
      then o :: r
      else x :: replace_object o r
  end.

(** A request is logged and takes the next entry of the failure script. *)
Definition logged (a : Action) (w : Cluster) : Cluster :=
  {| objects := objects w; faults := tl (faults w);
     actions := a :: actions w; next := next w; clock := clock w |}.

Definition request (a : Action) : M (option Fault) :=
  fun w => (Returned (hd None (faults w)), logged a w).

Definition allocated (w : Cluster) : Cluster :=
  {| objects := objects w; faults := faults w;
     actions := actions w; next := S (next w); clock := clock w |}.

Definition alloc (v : Z) : M Int32Ptr :=
  fun w => (Returned (mkInt32Ptr (next w) v), allocated w).

Definition now : M Z := fun w => (Returned (clock w), w).

Definition with_objects (l : list CloneSet) (w : Cluster) : Cluster :=
  {| objects := l; faults := faults w;
     actions := actions w; next := next w; clock := clock w |}.

Definition set_objects (l : list CloneSet) : M unit :=
  fun w => (Returned tt, with_objects l w).

Definition get_objects : M (list CloneSet) := fun w => (Returned (objects w), w).

(** [DeepCopy], and the decoding of a response: the pointer fields of the
    new object point to cells of their own. *)
Definition DeepCopy (o : CloneSet) : M CloneSet :=
  match Replicas (Spec o) with
  | None => ret o
  | Some p => q <- alloc (pointee p) ;; ret (set_Replicas (Some q) o)
  end.

Definition Get (ns name : string) : M (CloneSet + error) :=
  f <- request (GetAction ns name) ;;
  match f with
  | Some r => ret (inr (StatusError (fault_reason r)))
  | None =>
      l <- get_objects ;;
      match lookup_object ns name l with
      | None => ret (inr (StatusError ReasonNotFound))
      | Some o => o' <- DeepCopy o ;; ret (inl o')
      end
  end.

Definition Update (ns : string) (o : CloneSet) : M (option error) :=
  f <- request (UpdateAction ns o) ;;
  match f with
  | Some r => ret (Some (StatusError (fault_reason r)))
  | None =>
      if negb (String.eqb (Namespace (Meta o)) ns)
      then ret (Some (StatusError ReasonBadRequest))
      else
        l <- get_objects ;;
        match lookup_object ns (Name (Meta o)) l with
        | None => ret (Some (StatusError ReasonNotFound))
        | Some _ => _ <- set_objects (replace_object o l) ;; ret None
        end
  end.

Definition Create (ns : string) (o : CloneSet) : M (option error) :=
  f <- request (CreateAction ns o) ;;
  match f with
  | Some r => ret (Some (StatusError (fault_reason r)))
  | None =>
      if negb (String.eqb (Namespace (Meta o)) ns)
      then ret (Some (StatusError ReasonBadRequest))
      else
        l <- get_objects ;;
        match lookup_object ns (Name (Meta o)) l with
        | Some _ => ret (Some (StatusError ReasonAlreadyExists))
        | None => _ <- set_objects (l ++ [o]) ;; ret None
        end
  end.

(** Running a pure computation that may panic. *)
Definition lift {A} (o : outcome A) : M A := fun w => (o, w).

(** ** The controller *)

Definition ConfigRefs : Type := list string.

(** The [Tracker] interface.  Its implementations work on config maps and
    secrets through the core client, never on CloneSets: they are functions of
    their arguments here. *)
Record Tracker : Type := {
  GetTargetConfigs : Canary -> ConfigRefs + error;
  CreatePrimaryConfigs : Canary -> ConfigRefs -> list string -> option error;
  ApplyPrimaryConfigs : PodSpec -> ConfigRefs -> PodSpec;
  HasConfigChanged : Canary -> bool * option error
}.

(** The fields of [CloneSetController] that its methods read; the clients are
    the state of [M], the logger writes nothing that the methods read back. *)
Record CloneSetController : Type := {
  configTracker : Tracker;
  labels : list string;
  includeLabelPrefix : list string
}.

Definition scaleToZeroKey : string := "flagger.app/scale-to-zero".

Definition cloneSetScaleDownNodeSelector : gmap string string :=
  {[ scaleToZeroKey := "true" ]}.

(** [for k, v := range src { dst[k] = v }] *)
Definition range_assign (src dst : gmap string string) : gmap string string :=
  foldr (fun kv acc => <[ kv.1 := kv.2 ]> acc) dst (map_to_list src).

(** [for k := range src { delete(m, k) }] *)
Definition range_delete (src : gmap string string) (m : gomap) : gomap :=
  foldr (fun kv acc => go_delete kv.1 acc) m (map_to_list src).

(** Modelled from the spec: [int32p] is a helper of the package declared
    outside these two files; the specification has only the test it serves
    (section 4.2: the declared replica count is exactly zero).  Its call in
    [IsPrimaryReady] is compared with the [*int32] field [Spec.Replicas], which
    fixes its type, [func(int32) *int32]: it returns the address of a new cell
    holding its argument. *)
Definition int32p (i : Z) : M (option Int32Ptr) :=
  p <- alloc i ;; ret (Some p).

(** Modelled from the spec: [makePrimaryLabels] is declared outside these two
    files.  Section 4.2 of the specification has the copied pod template
    relabelled with the primary selector value: the labels given, with
    [labelValue] under [label]. *)
Definition makePrimaryLabels (lbls : gomap) (labelValue label : string) : gomap :=
  Some (<[ label := labelValue ]> (go_entries lbls)).

Section Controller.

(** Helpers of the package declared outside these two files, and the
    constants of the canary API they are called with. *)
Variable makeAnnotations : gomap -> gomap + error.
Variable includeLabelsByPrefix : gomap -> list string -> gomap.
Variable getPorts : Canary -> list Container -> gmap string Z.
Variable computeHash : PodTemplateSpec -> string.
Variable canaryAPIVersion : string.
Variable CanaryKind : string.

(** Modelled from the spec: [hasSpecChanged] is declared outside these two
    files.  Section 4.2 of the specification: a structural hash of the pod
    template is compared against the previously recorded hash, which the
    descriptor carries. *)
Definition hasSpecChanged (cd : Canary) (template : PodTemplateSpec) : bool * option error :=
  (negb (String.eqb (computeHash template) (LastAppliedSpec cd)), None).

(** [metav1.NewControllerRef(cd, gvk)] *)
Definition NewControllerRef (cd : Canary) : OwnerReference :=
  {| OwnerAPIVersion := canaryAPIVersion;
     OwnerKind := CanaryKind;
     OwnerName := CanaryName cd;
     OwnerController := true;
     OwnerBlockDeletion := true |}.

Variable c : CloneSetController.

Definition ScaleToZero (cd : Canary) : M (option error) :=
  let targetName := TargetRefName cd in
  r <- Get (CanaryNamespace cd) targetName ;;
  match r with
  | inr err =>
      ret (Some (Wrapf "cloneset %s.%s get query error: %w"
                   [AStr targetName; AStr (CanaryNamespace cd)] err))
  | inl cloneset =>
      clonesetCopy <- DeepCopy cloneset ;;
      let sel := range_assign cloneSetScaleDownNodeSelector
                   (range_assign (go_entries (node_selector cloneset)) ∅) in
      let clonesetCopy := set_NodeSelector (Some sel) clonesetCopy in
      err <- Update (Namespace (Meta cloneset)) clonesetCopy ;;
      match err with
      | Some err =>
          ret (Some (Wrapf "updating cloneset %s.%s failed: %w"
                       [AStr (Name (Meta clonesetCopy)); AStr (Namespace (Meta clonesetCopy))] err))
      | None => ret None
      end
  end.

Definition ScaleFromZero (cd : Canary) : M (option error) :=
  let targetName := TargetRefName cd in
  r <- Get (CanaryNamespace cd) targetName ;;
  match r with
  | inr err =>
      ret (Some (Wrapf "cloneset %s.%s query error: %w"
                   [AStr targetName; AStr (CanaryNamespace cd)] err))
  | inl cloneset =>
      clonesetCopy <- DeepCopy cloneset ;;
      let clonesetCopy :=
        set_NodeSelector (range_delete cloneSetScaleDownNodeSelector (node_selector clonesetCopy))
          clonesetCopy in
      err <- Update (Namespace (Meta cloneset)) clonesetCopy ;;
      match err with
      | Some err =>
          ret (Some (Wrapf "scaling up cloneset %s.%s failed: %w"
                       [AStr (Name (Meta clonesetCopy)); AStr (Namespace (Meta clonesetCopy))] err))
      | None => ret None
      end
  end.

(** [@TODO implement logic] *)
Definition getCloneSetCondition : option CloneSetCondition := None.

Definition reason_is (r : string) (p : option CloneSetCondition) : bool :=
  match p with
  | Some p => String.eqb (CondReason p) r
  | None => false
  end.

Definition isCloneSetReady (cloneSet : CloneSet) (deadline : Z) : M (bool * option error) :=
  if (Generation (Meta cloneSet) <=? ObservedGeneration (Status cloneSet))%Z then
    let progress := getCloneSetCondition in
    retriable <-
      match progress with
      | Some _ =>
          match getCloneSetCondition with
          | Some available =>
              if String.eqb (CondStatus available) "False"
                 && String.eqb (CondReason available) "MinimumReplicasUnavailable"
              then
                let from := LastTransitionTime available in
                let delta := wrap64 (wrap64 deadline * 1000000000) in
                t <- now ;;
                ret (negb (from + delta <? t)%Z)
              else ret true
          | None => ret true
          end
      | None => ret true
      end ;;
    let st := Status cloneSet in
    if reason_is "ProgressDeadlineExceeded" progress then
      ret (false, Some (Errorf "cloneset %q exceeded its progress deadline"
                          [AQuoted (Name (Meta cloneSet))]))
    else if match Replicas (Spec cloneSet) with
            | Some p => (UpdatedReplicas st <? pointee p)%Z
            | None => false
            end then
      ret (retriable,
           Some (Errorf "waiting for rollout to finish: %d out of %d new replicas have been updated"
                   [AInt (UpdatedReplicas st);
                    AInt (from_option pointee 0 (Replicas (Spec cloneSet)))]))
    else if (UpdatedReplicas st <? StatusReplicas st)%Z then
      ret (retriable,
           Some (Errorf "waiting for rollout to finish: %d old replicas are pending termination"
                   [AInt (wrap32 (StatusReplicas st - UpdatedReplicas st))]))
    else if (AvailableReplicas st <? UpdatedReplicas st)%Z then
      ret (retriable,
           Some (Errorf "waiting for rollout to finish: %d of %d updated replicas are available"
                   [AInt (AvailableReplicas st); AInt (UpdatedReplicas st)]))
    else ret (true, None)
  else
    ret (true,
         Some (Errorf "waiting for rollout to finish: observed cloneset generation less then desired generation" [])).

Definition IsPrimaryReady (cd : Canary) : M (option error) :=
  let primaryName := TargetRefName cd +:+ "-primary" in
  r <- Get (CanaryNamespace cd) primaryName ;;
  match r with
  | inr err =>
      ret (Some (Wrapf "cloneset %s.%s get query error: %w"
                   [AStr primaryName; AStr (CanaryNamespace cd)] err))
  | inl primary =>
      v <- isCloneSetReady primary (ProgressDeadlineSeconds cd) ;;
      match snd v with
      | Some err =>
          ret (Some (Wrapf "%s.%s not ready: %w"
                       [AStr primaryName; AStr (CanaryNamespace cd)] err))
      | None =>
          zero <- int32p 0 ;;
          if ptr_eq (Replicas (Spec primary)) zero then
            ret (Some (Errorf "halt %s.%s advancement: primary cloneset is scaled to zero"
                         [AStr (CanaryName cd); AStr (CanaryNamespace cd)]))
          else ret None
      end
  end.

Definition IsCanaryReady (cd : Canary) : M (bool * option error) :=
  let targetName := TargetRefName cd in
  r <- Get (CanaryNamespace cd) targetName ;;
  match r with
  | inr err =>
      ret (true, Some (Wrapf "cloneset %s.%s get query error: %w"
                         [AStr targetName; AStr (CanaryNamespace cd)] err))
  | inl canary =>
      v <- isCloneSetReady canary (ProgressDeadlineSeconds cd) ;;
      match snd v with
      | Some err =>
          ret (fst v, Some (Wrapf "canary cloneset %s.%s not ready: %w"
                              [AStr targetName; AStr (CanaryNamespace cd)] err))
      | None => ret (true, None)
      end
  end.

(** [getSelectorLabel]: [rest] is what the loop over [c.labels] has still to
    visit.  [cloneSet.Spec.Selector] is a pointer and is dereferenced at each
    visit. *)
Fixpoint getSelectorLabel_from (rest : list string) (cloneSet : CloneSet)
  : outcome (string * string * option error) :=
  match rest with
  | [] =>
      Returned ("", "",
                Some (Errorf "cloneset %s.%s spec.selector.matchLabels must contain one of %v'"
                        [AStr (Name (Meta cloneSet)); AStr (Namespace (Meta cloneSet));
                         AStrs (labels c)]))
  | l :: rest' =>
      match Selector (Spec cloneSet) with
      | None => Panicked
      | Some sel =>
          match go_lookup l (MatchLabels sel) with
          | Some v => Returned (l, v, None)
          | None => getSelectorLabel_from rest' cloneSet
          end
      end
  end.

Definition getSelectorLabel (cloneSet : CloneSet) : outcome (string * string * option error) :=
  getSelectorLabel_from (labels c) cloneSet.

Definition GetMetadata (cd : Canary)
  : M (string * string * option (gmap string Z) * option error) :=
  let targetName := TargetRefName cd in
  r <- Get (CanaryNamespace cd) targetName ;;
  match r with
  | inr err =>
      ret ("", "", None,
           Some (Wrapf "cloneset %s.%s get query error: %w"
                   [AStr targetName; AStr (CanaryNamespace cd)] err))
  | inl canaryCloneset =>
      s <- lift (getSelectorLabel canaryCloneset) ;;
      match s with
      | (_, _, Some err) => ret ("", "", None, Some (Wrapf "getSelectorLabel failed: %w" [] err))
      | (label, labelValue, None) =>
          let ports :=
            if PortDiscovery cd
            then Some (getPorts cd (Containers (TemplateSpec (Template (Spec canaryCloneset)))))
            else None in
          ret (label, labelValue, ports, None)
      end
  end.

Definition createPrimaryCloneSet (cd : Canary) (includeLabelPrefix_ : list string) : M (option error) :=
  let targetName := TargetRefName cd in
  let primaryName := TargetRefName cd +:+ "-primary" in
  r <- Get (CanaryNamespace cd) targetName ;;
  match r with
  | inr err =>
      ret (Some (Wrapf "cloneset %s.%s get query error: %w"
                   [AStr targetName; AStr (CanaryNamespace cd)] err))
  | inl canaryCloneset =>
      let strategy := Type_ (UpdateStrategy (Spec canaryCloneset)) in
      if negb (String.eqb strategy "")
         && negb (String.eqb strategy RecreateCloneSetUpdateStrategyType)
      then
        ret (Some (Errorf "cloneset %s.%s must have RollingUpdate strategy but have %s"
                     [AStr targetName; AStr (CanaryNamespace cd); AStr strategy]))
      else
        let lbls := includeLabelsByPrefix (Labels (Meta canaryCloneset)) includeLabelPrefix_ in
        s <- lift (getSelectorLabel canaryCloneset) ;;
        match s with
        | (_, _, Some err) => ret (Some (Wrapf "getSelectorLabel failed: %w" [] err))
        | (label, labelValue, None) =>
            let primaryLabelValue := labelValue +:+ "-primary" in
            r <- Get (CanaryNamespace cd) primaryName ;;
            if IsNotFound (match r with inr err => Some err | inl _ => None end) then
              match GetTargetConfigs (configTracker c) cd with
              | inr err => ret (Some (Wrapf "GetTargetConfigs failed: %w" [] err))
              | inl configRefs =>
                  match CreatePrimaryConfigs (configTracker c) cd configRefs (includeLabelPrefix c) with
                  | Some err => ret (Some (Wrapf "CreatePrimaryConfigs failed: %w" [] err))
                  | None =>
                      match makeAnnotations
                              (Annotations (TemplateMeta (Template (Spec canaryCloneset)))) with
                      | inr err => ret (Some (Wrapf "makeAnnotations failed: %w" [] err))
                      | inl annotations =>
                          let primaryCloneset :=
                            {| Meta :=
                                 {| Name := primaryName;
                                    Namespace := CanaryNamespace cd;
                                    Generation := 0;
                                    Labels := makePrimaryLabels lbls primaryLabelValue label;
                                    Annotations := Annotations (Meta canaryCloneset);
                                    OwnerReferences := [NewControllerRef cd] |};
                               Spec :=
                                 {| Replicas := None;
                                    Selector :=
                                      Some {| MatchLabels := Some {[ label := primaryLabelValue ]} |};
                                    Template :=
                                      {| TemplateMeta :=
                                           {| Name := "";
                                              Namespace := "";
                                              Generation := 0;
                                              Labels :=
                                                makePrimaryLabels
                                                  (Labels (TemplateMeta (Template (Spec canaryCloneset))))
                                                  primaryLabelValue label;
                                              Annotations := annotations;
                                              OwnerReferences := [] |};
                                         TemplateSpec :=
                                           ApplyPrimaryConfigs (configTracker c)
                                             (TemplateSpec (Template (Spec canaryCloneset)))
                                             configRefs |};
                                    UpdateStrategy := UpdateStrategy (Spec canaryCloneset);
                                    MinReadySeconds := MinReadySeconds (Spec canaryCloneset);
                                    RevisionHistoryLimit := RevisionHistoryLimit (Spec canaryCloneset) |};
                               Status :=
                                 {| ObservedGeneration := 0; StatusReplicas := 0;
                                    UpdatedReplicas := 0; AvailableReplicas := 0 |} |} in
                          err <- Create (CanaryNamespace cd) primaryCloneset ;;
                          match err with
                          | Some err =>
                              ret (Some (Wrapf "creating cloneset %s.%s failed: %w"
                                           [AStr (Name (Meta primaryCloneset));
                                            AStr (CanaryNamespace cd)] err))
                          | None => ret None
                          end
                      end
                  end
              end
            else ret None
        end
  end.

Definition initial_phase (cd : Canary) : bool :=
  String.eqb (Phase cd) "" || String.eqb (Phase cd) CanaryPhaseInitializing.

Definition Initialize (cd : Canary) : M (option error) :=
  err <- createPrimaryCloneSet cd (includeLabelPrefix c) ;;
  match err with
  | Some err => ret (Some (Wrapf "createPrimaryCloneSet failed: %w" [] err))
  | None =>
      if initial_phase cd then
        err <- (if negb (SkipAnalysis cd) then IsPrimaryReady cd else ret None) ;;
        match err with
        | Some err => ret (Some (Wrapf "%w" [] err))
        | None =>
            err <- ScaleToZero cd ;;
            match err with
            | Some err => ret (Some (Wrapf "ScaleToZero failed: %w" [] err))
            | None => ret None
            end
        end
      else ret None
  end.

Definition Promote (cd : Canary) : M (option error) :=
  let targetName := TargetRefName cd in
  let primaryName := targetName +:+ "-primary" in
  r <- Get (CanaryNamespace cd) targetName ;;
  match r with
  | inr err =>
      ret (Some (Wrapf "cloneset %s.%s get query error: %v"
                   [AStr targetName; AStr (CanaryNamespace cd)] err))
  | inl canary =>
      s <- lift (getSelectorLabel canary) ;;
      match s with
      | (_, _, Some err) => ret (Some (Wrapf "getSelectorLabel failed: %w" [] err))
      | (label, labelValue, None) =>
          let primaryLabelValue := labelValue +:+ "-primary" in
          r <- Get (CanaryNamespace cd) primaryName ;;
          match r with
          | inr err =>
              ret (Some (Wrapf "cloneset %s.%s get query error: %w"
                           [AStr primaryName; AStr (CanaryNamespace cd)] err))
          | inl primary =>
              match GetTargetConfigs (configTracker c) cd with
              | inr err => ret (Some (Wrapf "GetTargetConfigs failed: %w" [] err))
              | inl configRefs =>
                  match CreatePrimaryConfigs (configTracker c) cd configRefs (includeLabelPrefix c) with
                  | Some err => ret (Some (Wrapf "CreatePrimaryConfigs failed: %w" [] err))
                  | None =>
                      primaryCopy <- DeepCopy primary ;;
                      let podSpec :=
                        ApplyPrimaryConfigs (configTracker c)
                          (TemplateSpec (Template (Spec canary))) configRefs in
                      let podSpec :=
                        set_NodeSelector_pod
                          (range_delete cloneSetScaleDownNodeSelector (NodeSelector podSpec))
                          podSpec in
                      match makeAnnotations (Annotations (TemplateMeta (Template (Spec canary)))) with
                      | inr err => ret (Some (Wrapf "makeAnnotations failed: %w" [] err))
                      | inl annotations =>
                          let tmeta := TemplateMeta (Template (Spec primaryCopy)) in
                          let primaryCopy :=
                            {| Meta := Meta primaryCopy;
                               Spec :=
                                 {| Replicas := Replicas (Spec primaryCopy);
                                    Selector := Selector (Spec primaryCopy);
                                    Template :=
                                      {| TemplateMeta :=
                                           {| Name := Name tmeta;
                                              Namespace := Namespace tmeta;
                                              Generation := Generation tmeta;
                                              Labels :=
                                                makePrimaryLabels
                                                  (Labels (TemplateMeta (Template (Spec canary))))
                                                  primaryLabelValue label;
                                              Annotations := annotations;
                                              OwnerReferences := OwnerReferences tmeta |};
                                         TemplateSpec := podSpec |};
                                    UpdateStrategy := UpdateStrategy (Spec canary);
                                    MinReadySeconds := MinReadySeconds (Spec canary);
                                    RevisionHistoryLimit := RevisionHistoryLimit (Spec canary) |};
                               Status := Status primaryCopy |} in
                          err <- Update (CanaryNamespace cd) primaryCopy ;;
                          match err with
                          | Some err =>
                              ret (Some (Wrapf "updating cloneset %s.%s template spec failed: %w"
                                           [AStr (Name (Meta primaryCopy));
                                            AStr (Namespace (Meta primaryCopy))] err))
                          | None => ret None
                          end
                      end
                  end
              end
          end
      end
  end.

Definition HasTargetChanged (cd : Canary) : M (bool * option error) :=
  let targetName := TargetRefName cd in
  r <- Get (CanaryNamespace cd) targetName ;;
  match r with
  | inr err =>
      ret (false, Some (Wrapf "cloneset %s.%s get query error: %w"
                          [AStr targetName; AStr (CanaryNamespace cd)] err))
  | inl canary =>
      let canary :=
        set_NodeSelector (range_delete cloneSetScaleDownNodeSelector (node_selector canary)) canary in
      let canary :=
        match node_selector canary with
        | None => set_NodeSelector (Some ∅) canary
        | Some _ => canary
        end in
      ret (hasSpecChanged cd (Template (Spec canary)))
  end.


Definition Finalize (cd : Canary) : M (option error) :=
  err <- ScaleFromZero cd ;;
  match err with
  | Some err => ret (Some (Wrapf "ScaleFromZero failed: %w" [] err))
  | None => ret None
  end.

End Controller.

(** ** What a request leaves behind

    The object a successful [Get] hands out and the state after a copy: used
    to state what the operations do. *)

Definition fetched (o : CloneSet) (a : nat) : CloneSet :=
  match Replicas (Spec o) with
  | None => o
  | Some p => set_Replicas (Some (mkInt32Ptr a (pointee p))) o
  end.

Definition copied (o : CloneSet) (w : Cluster) : Cluster :=
  match Replicas (Spec o) with
  | None => w
  | Some _ => allocated w
  end.

(** No request fails but for what the objects are. *)
Definition quiet (w : Cluster) : Prop := Forall (eq None) (faults w).

Definition target_of (cd : Canary) (w : Cluster) : option CloneSet :=
  lookup_object (CanaryNamespace cd) (TargetRefName cd) (objects w).

Definition primary_of (cd : Canary) (w : Cluster) : option CloneSet :=
  lookup_object (CanaryNamespace cd) (TargetRefName cd +:+ "-primary") (objects w).

(** The requests that write: every create and update. *)
Definition is_write (a : Action) : bool :=
  match a with
  | GetAction _ _ => false
  | CreateAction _ _ => true
  | UpdateAction _ _ => true
  end.

Definition writes (w : Cluster) : list Action := List.filter is_write (actions w).

(** The requests that write the object called [name]. *)
Definition writes_to (name : string) (a : Action) : bool :=
  match a with
  | GetAction _ _ => false
  | CreateAction _ o => String.eqb (Name (Meta o)) name
  | UpdateAction _ o => String.eqb (Name (Meta o)) name
  end.

Definition writes_of (name : string) (w : Cluster) : list Action :=
  List.filter (writes_to name) (actions w).

(** [keeps I m Q]: run from a state in [I], the computation [m] ends in a
    state in [I], panic or not, and what it returns is in [Q]. *)
Definition keeps (I : Cluster -> Prop) {A} (m : M A) (Q : A -> Prop) : Prop :=
  forall w, I w ->
    I (snd (m w)) /\ forall a, fst (m w) = Returned a -> Q a.

(** The states in [I] stay in [I] when a read is logged and when a cell is
    allocated. *)
Record read_stable (I : Cluster -> Prop) : Prop := {
  stable_get : forall ns n w, I w -> I (logged (GetAction ns n) w);
  stable_alloc : forall w, I w -> I (allocated w)
}.

(** The states in [I] stay in [I] when the object [o] is updated, and when
    the update fails. *)
Definition update_stable (I : Cluster -> Prop) (o : CloneSet) : Prop :=
  forall ns w, I w ->
    I (logged (UpdateAction ns o) w) /\
    I (with_objects (replace_object o (objects w)) (logged (UpdateAction ns o) w)).

(** The pod template that [HasTargetChanged] hands to [hasSpecChanged] for the
    target [t]: the marker removed, a nil node selector made an empty map. *)
Definition hashed_template (t : CloneSet) : PodTemplateSpec :=
  {| TemplateMeta := TemplateMeta (Template (Spec t));
     TemplateSpec :=
       {| NodeSelector := Some (delete scaleToZeroKey (go_entries (node_selector t)));
          Containers := Containers (TemplateSpec (Template (Spec t))) |} |}.

(** ** A cluster to run the controller on

    Target [demo] and primary [demo-primary] in namespace [ns], the
    controller configured with the candidate labels [app] and [name]. *)

Module Demo.

Definition tracker : Tracker :=
  {| GetTargetConfigs := fun _ => inl [];
     CreatePrimaryConfigs := fun _ _ _ => None;
     ApplyPrimaryConfigs := fun p _ => p;
     HasConfigChanged := fun _ => (false, None) |}.

Definition controller : CloneSetController :=
  {| configTracker := tracker; labels := ["app"; "name"]; includeLabelPrefix := [] |}.

Definition makeAnnotations (a : gomap) : gomap + error :=
  inl (Some (<[ "flagger-id" := "1" ]> (go_entries a))).

Definition includeLabelsByPrefix (l : gomap) (prefixes : list string) : gomap := l.

(** A hash that tells a nil node selector from an empty one and reads every
    entry of it. *)
Definition computeHash (t : PodTemplateSpec) : string :=
  match NodeSelector (TemplateSpec t) with
  | None => "nil"
  | Some g => foldr (fun kv acc => kv.1 +:+ "=" +:+ kv.2 +:+ ";" +:+ acc) "map" (map_to_list g)
  end.

Definition meta (name : string) : ObjectMeta :=
  {| Name := name; Namespace := "ns"; Generation := 1;
     Labels := None; Annotations := None; OwnerReferences := [] |}.

Definition cloneset (name : string) (matchLabels : gmap string string)
    (nodeSelector : gomap) (strategy : string) (minReady : Z) (replicas : option Z) : CloneSet :=
  {| Meta := meta name;
     Spec := {| Replicas := option_map (mkInt32Ptr 0) replicas;
                Selector := Some {| MatchLabels := Some matchLabels |};
                Template := {| TemplateMeta := meta "";
                               TemplateSpec := {| NodeSelector := nodeSelector; Containers := [] |} |};
                UpdateStrategy := {| Type_ := strategy; Partition := None; Paused := false |};
                MinReadySeconds := minReady;
                RevisionHistoryLimit := None |};
     Status := {| ObservedGeneration := 1; StatusReplicas := 0;
                  UpdatedReplicas := 0; AvailableReplicas := 0 |} |}.

Definition canary (phase : string) (skip : bool) : Canary :=
  {| CanaryName := "demo"; CanaryNamespace := "ns"; TargetRefName := "demo";
     Phase := phase; SkipAnalysis := skip; ProgressDeadlineSeconds := 60;
     PortDiscovery := false; LastAppliedSpec := "map" |}.

Definition cluster (objs : list CloneSet) (script : list (option Fault)) : Cluster :=
  {| objects := objs; faults := script; actions := []; next := 1; clock := 0 |}.

Definition target : CloneSet :=
  cloneset "demo" {[ "app" := "demo" ]} None "" 5 (Some 2).

Definition primary : CloneSet :=
  cloneset "demo-primary" {[ "app" := "demo-primary" ]} None "" 0 (Some 0).

(** A target whose selector has both candidate labels. *)
Definition two_label_target : CloneSet :=
  cloneset "demo" (<[ "app" := "demo" ]> {[ "name" := "demo-x" ]}) None "" 5 (Some 2).

(** The target once scaled to zero, on nodes with a label of their own. *)
Definition scaled_target : CloneSet :=
  cloneset "demo" {[ "app" := "demo" ]}
    (Some (<[ scaleToZeroKey := "true" ]> {[ "disk" := "ssd" ]})) "" 5 (Some 2).

End Demo.

(** A target that declares no selector. *)
Definition no_selector_target : CloneSet :=
  {| Meta := Meta Demo.target;
     Spec := {| Replicas := Replicas (Spec Demo.target);
                Selector := None;
                Template := Template (Spec Demo.target);
                UpdateStrategy := UpdateStrategy (Spec Demo.target);
                MinReadySeconds := MinReadySeconds (Spec Demo.target);
                RevisionHistoryLimit := RevisionHistoryLimit (Spec Demo.target) |};
     Status := Status Demo.target |}.

(** ** The factory

    [Factory] and the controllers it builds, with the fields that
    [Controller] sets in each of them beside the clients and the logger: the
    daemon-set controller is given no label prefixes, the service controller
    neither labels nor tracker. *)

Record Factory : Type := {
  factoryConfigTracker : Tracker;
  factoryLabels : list string;
  factoryIncludeLabelPrefix : list string
}.

Definition NewFactory (configTracker : Tracker) (labels includeLabelPrefix : list string)
  : Factory :=
  {| factoryConfigTracker := configTracker;
     factoryLabels := labels;
     factoryIncludeLabelPrefix := includeLabelPrefix |}.

Inductive Controller : Type :=
| DeploymentController (labels : list string) (configTracker : Tracker)
    (includeLabelPrefix : list string)
| DaemonSetController (labels : list string) (configTracker : Tracker)
| ServiceController
| CloneSetCtrl (c : CloneSetController).

Definition Factory_Controller (factory : Factory) (kind : string) : Controller :=
  let deploymentCtrl :=
    DeploymentController (factoryLabels factory) (factoryConfigTracker factory)
      (factoryIncludeLabelPrefix factory) in
  let daemonSetCtrl :=
    DaemonSetController (factoryLabels factory) (factoryConfigTracker factory) in
  let serviceCtrl := ServiceController in
  let cloneSetCtrl :=
    CloneSetCtrl {| configTracker := factoryConfigTracker factory;
                    labels := factoryLabels factory;
                    includeLabelPrefix := factoryIncludeLabelPrefix factory |} in
  if String.eqb kind "DaemonSet" then daemonSetCtrl
  else if String.eqb kind "Deployment" then deploymentCtrl
  else if String.eqb kind "Service" then serviceCtrl
  else if String.eqb kind "CloneSet" then cloneSetCtrl
  else deploymentCtrl.

(** ** Predicates of the statements *)

(** The rollout of [cs] is observed and finished: what the replica counts
    and generations are when the classifier has nothing to wait for. *)
Definition rollout_finished (cs : CloneSet) : Prop :=
  (Generation (Meta cs) <= ObservedGeneration (Status cs))%Z /\
  (forall p, Replicas (Spec cs) = Some p -> (pointee p <= UpdatedReplicas (Status cs))%Z) /\
  (StatusReplicas (Status cs) <= UpdatedReplicas (Status cs))%Z /\
  (UpdatedReplicas (Status cs) <= AvailableReplicas (Status cs))%Z.

(** [t1] is [t] but for the node selector of its pod template (and for the
    address of its replica cell). *)
Definition same_but_node_selector (t t1 : CloneSet) : Prop :=
  Meta t1 = Meta t /\
  Status t1 = Status t /\
  option_map pointee (Replicas (Spec t1)) = option_map pointee (Replicas (Spec t)) /\
  Selector (Spec t1) = Selector (Spec t) /\
  UpdateStrategy (Spec t1) = UpdateStrategy (Spec t) /\
  MinReadySeconds (Spec t1) = MinReadySeconds (Spec t) /\
  RevisionHistoryLimit (Spec t1) = RevisionHistoryLimit (Spec t) /\
  TemplateMeta (Template (Spec t1)) = TemplateMeta (Template (Spec t)) /\
  Containers (TemplateSpec (Template (Spec t1))) = Containers (TemplateSpec (Template (Spec t))).






(** * Properties *)

(** ** The object store *)

Lemma same_object_true ns n o :
  same_object ns n o = true <-> Namespace (Meta o) = ns /\ Name (Meta o) = n.
Proof.
  unfold same_object. rewrite andb_true_iff, !String.eqb_eq. tauto.
Qed.

Lemma lookup_object_key ns n l o :
  lookup_object ns n l = Some o -> Namespace (Meta o) = ns /\ Name (Meta o) = n.
Proof.
  unfold lookup_object. intros H. apply find_some in H as [_ H].
  now apply same_object_true.
Qed.

Lemma lookup_replace_same o l x :
  lookup_object (Namespace (Meta o)) (Name (Meta o)) l = Some x ->
  lookup_object (Namespace (Meta o)) (Name (Meta o)) (replace_object o l) = Some o.
Proof.
  unfold lookup_object. induction l as [|y l IH]; simpl; [discriminate|].
  destruct (same_object _ _ y) eqn:E; simpl.
  - intros _. assert (same_object (Namespace (Meta o)) (Name (Meta o)) o = true) as ->
      by now apply same_object_true.
    reflexivity.
  - rewrite E. exact IH.
Qed.

Lemma lookup_replace_other o l ns n :
  same_object ns n o = false ->
  lookup_object ns n (replace_object o l) = lookup_object ns n l.
Proof.
  unfold lookup_object. intros Hne. induction l as [|y l IH]; simpl; [reflexivity|].
  destruct (same_object (Namespace (Meta o)) (Name (Meta o)) y) eqn:E; simpl.
  - rewrite Hne. apply same_object_true in E as [E1 E2].
    destruct (same_object ns n y) eqn:E'; [|reflexivity].
    apply same_object_true in E' as [E3 E4].
    assert (same_object ns n o = true) by (apply same_object_true; split; congruence).
    congruence.
  - rewrite IH. reflexivity.
Qed.

Lemma length_append (s t : string) :
  String.length (s +:+ t) = (String.length s + String.length t)%nat.
Proof. induction s as [|a s IH]; simpl; [reflexivity | now rewrite IH]. Qed.

Lemma primary_name_differs (s : string) : s +:+ "-primary" <> s.
Proof.
  intros H. apply (f_equal String.length) in H.
  rewrite length_append in H. simpl in H. lia.
Qed.

(** ** Copies *)

Lemma DeepCopy_eq o w : DeepCopy o w = (Returned (fetched o (next w)), copied o w).
Proof.
  unfold DeepCopy, fetched, copied. destruct (Replicas (Spec o)); reflexivity.
Qed.

Lemma fetched_Meta o a : Meta (fetched o a) = Meta o.
Proof. unfold fetched. destruct (Replicas (Spec o)); reflexivity. Qed.

Lemma fetched_Status o a : Status (fetched o a) = Status o.
Proof. unfold fetched. destruct (Replicas (Spec o)); reflexivity. Qed.

Lemma fetched_Template o a : Template (Spec (fetched o a)) = Template (Spec o).
Proof. unfold fetched. destruct (Replicas (Spec o)); reflexivity. Qed.

Lemma fetched_Selector o a : Selector (Spec (fetched o a)) = Selector (Spec o).
Proof. unfold fetched. destruct (Replicas (Spec o)); reflexivity. Qed.

Lemma fetched_UpdateStrategy o a : UpdateStrategy (Spec (fetched o a)) = UpdateStrategy (Spec o).
Proof. unfold fetched. destruct (Replicas (Spec o)); reflexivity. Qed.

Lemma fetched_MinReadySeconds o a : MinReadySeconds (Spec (fetched o a)) = MinReadySeconds (Spec o).
Proof. unfold fetched. destruct (Replicas (Spec o)); reflexivity. Qed.

Lemma fetched_node_selector o a : node_selector (fetched o a) = node_selector o.
Proof. unfold node_selector. now rewrite fetched_Template. Qed.

Lemma fetched_Replicas o a :
  Replicas (Spec (fetched o a)) = option_map (fun p => mkInt32Ptr a (pointee p)) (Replicas (Spec o)).
Proof. unfold fetched. destruct (Replicas (Spec o)) eqn:E; simpl; [reflexivity | exact E]. Qed.

Lemma copied_objects o w : objects (copied o w) = objects w.
Proof. unfold copied. destruct (Replicas (Spec o)); reflexivity. Qed.

Lemma copied_faults o w : faults (copied o w) = faults w.
Proof. unfold copied. destruct (Replicas (Spec o)); reflexivity. Qed.

Lemma copied_actions o w : actions (copied o w) = actions w.
Proof. unfold copied. destruct (Replicas (Spec o)); reflexivity. Qed.

Lemma copied_next o w : (next w <= next (copied o w))%nat.
Proof. unfold copied. destruct (Replicas (Spec o)); simpl; lia. Qed.

(** ** Requests *)

Lemma quiet_hd w : quiet w -> hd None (faults w) = None.
Proof.
  unfold quiet. destruct (faults w); simpl; [reflexivity|].
  intros H. now apply Forall_inv in H.
Qed.

Lemma quiet_logged a w : quiet w -> quiet (logged a w).
Proof.
  unfold quiet. simpl. destruct (faults w); simpl; [constructor|].
  intros H. now apply Forall_inv_tail in H.
Qed.

Lemma quiet_copied o w : quiet w -> quiet (copied o w).
Proof. unfold quiet. now rewrite copied_faults. Qed.

Lemma quiet_with_objects l w : quiet w -> quiet (with_objects l w).
Proof. exact (fun H => H). Qed.

Lemma Get_found ns n w o :
  hd None (faults w) = None ->
  lookup_object ns n (objects w) = Some o ->
  Get ns n w = (Returned (inl (fetched o (next w))), copied o (logged (GetAction ns n) w)).
Proof.
  intros Hf Hl. unfold Get, bind, request, get_objects. rewrite Hf.
  cbv beta iota. change (objects (logged (GetAction ns n) w)) with (objects w).
  rewrite Hl. rewrite DeepCopy_eq. reflexivity.
Qed.

Lemma Get_missing ns n w :
  hd None (faults w) = None ->
  lookup_object ns n (objects w) = None ->
  Get ns n w = (Returned (inr (StatusError ReasonNotFound)), logged (GetAction ns n) w).
Proof.
  intros Hf Hl. unfold Get, bind, request, get_objects. rewrite Hf.
  cbv beta iota. change (objects (logged (GetAction ns n) w)) with (objects w).
  rewrite Hl. reflexivity.
Qed.

Lemma Get_fault ns n w f :
  hd None (faults w) = Some f ->
  Get ns n w = (Returned (inr (StatusError (fault_reason f))), logged (GetAction ns n) w).
Proof.
  intros Hf. unfold Get, bind, request. rewrite Hf. reflexivity.
Qed.

(** A [Get] writes nothing, whatever it answers. *)
Lemma Get_frame ns n w :
  exists r w', Get ns n w = (Returned r, w') /\
    objects w' = objects w /\
    faults w' = tl (faults w) /\
    actions w' = GetAction ns n :: actions w.
Proof.
  destruct (hd None (faults w)) as [f|] eqn:Hf.
  - eexists _, _. split; [apply (Get_fault _ _ _ f Hf)|]. simpl. auto.
  - destruct (lookup_object ns n (objects w)) as [o|] eqn:Hl.
    + eexists _, _. split; [apply (Get_found _ _ _ o Hf Hl)|].
      rewrite copied_objects, copied_faults, copied_actions. simpl. auto.
    + eexists _, _. split; [apply (Get_missing _ _ _ Hf Hl)|]. simpl. auto.
Qed.

Lemma Update_ok ns o w x :
  hd None (faults w) = None ->
  Namespace (Meta o) = ns ->
  lookup_object ns (Name (Meta o)) (objects w) = Some x ->
  Update ns o w =
    (Returned None, with_objects (replace_object o (objects w)) (logged (UpdateAction ns o) w)).
Proof.
  intros Hf Hns Hl. unfold Update, bind, request, get_objects, set_objects. rewrite Hf.
  cbv beta iota. rewrite Hns, String.eqb_refl. cbn [negb]. cbv beta iota.
  change (objects (logged (UpdateAction ns o) w)) with (objects w).
  rewrite Hl. reflexivity.
Qed.

(** ** The scale-to-zero marker *)

Lemma range_assign_marker m :
  range_assign cloneSetScaleDownNodeSelector m = <[ scaleToZeroKey := "true" ]> m.
Proof.
  unfold range_assign, cloneSetScaleDownNodeSelector.
  rewrite map_to_list_singleton. reflexivity.
Qed.

Lemma range_assign_copy (m : gmap string string) : range_assign m ∅ = m.
Proof. exact (list_to_map_to_list m). Qed.

Lemma range_delete_marker m :
  range_delete cloneSetScaleDownNodeSelector m = go_delete scaleToZeroKey m.
Proof.
  unfold range_delete, cloneSetScaleDownNodeSelector.
  rewrite map_to_list_singleton. reflexivity.
Qed.

Lemma quiet_after_get o a w : quiet w -> quiet (copied o (logged a w)).
Proof. intros H. now apply quiet_copied, quiet_logged. Qed.

(** What an update of the target's node selector leaves.  [op] is either
    scale operation: they differ in the selector [m] they compute from the
    object read and its copy, and in their messages. *)
Lemma scale_step cd w t (m : CloneSet -> CloneSet -> gomap) fmt1 fmt2 :
  quiet w ->
  target_of cd w = Some t ->
  let op : M (option error) :=
    r <- Get (CanaryNamespace cd) (TargetRefName cd) ;;
    match r with
    | inr err => ret (Some (Wrapf fmt1 [AStr (TargetRefName cd); AStr (CanaryNamespace cd)] err))
    | inl cloneset =>
        clonesetCopy <- DeepCopy cloneset ;;
        let clonesetCopy := set_NodeSelector (m cloneset clonesetCopy) clonesetCopy in
        err <- Update (Namespace (Meta cloneset)) clonesetCopy ;;
        match err with
        | Some err =>
            ret (Some (Wrapf fmt2 [AStr (Name (Meta clonesetCopy));
                                   AStr (Namespace (Meta clonesetCopy))] err))
        | None => ret None
        end
    end in
  fst (op w) = Returned None /\
  quiet (snd (op w)) /\
  exists t1 a b,
    target_of cd (snd (op w)) = Some t1 /\
    node_selector t1 = m (fetched t a) (fetched (fetched t a) b) /\
    TemplateMeta (Template (Spec t1)) = TemplateMeta (Template (Spec t)) /\
    Containers (TemplateSpec (Template (Spec t1))) = Containers (TemplateSpec (Template (Spec t))) /\
    actions (snd (op w)) =
      UpdateAction (CanaryNamespace cd) t1
        :: GetAction (CanaryNamespace cd) (TargetRefName cd) :: actions w /\
    forall ns n, same_object ns n t = false ->
      lookup_object ns n (objects (snd (op w))) = lookup_object ns n (objects w).
Proof.
  intros Hq Ht op. unfold target_of in Ht.
  pose proof (lookup_object_key _ _ _ _ Ht) as [Hns Hname].
  set (w1 := copied t (logged (GetAction (CanaryNamespace cd) (TargetRefName cd)) w)).
  set (t' := fetched t (next w)).
  set (t1 := set_NodeSelector (m t' (fetched t' (next w1))) (fetched t' (next w1))).
  assert (Hmeta : Meta t1 = Meta t)
    by (unfold t1, t'; cbn [set_NodeSelector Meta]; now rewrite !fetched_Meta).
  assert (Hop : op w =
    (Returned None,
     with_objects (replace_object t1 (objects w))
       (logged (UpdateAction (CanaryNamespace cd) t1) (copied t' w1)))).
  { unfold op, bind. rewrite (Get_found _ _ _ t (quiet_hd _ Hq) Ht). cbv beta iota.
    fold w1 t'. rewrite DeepCopy_eq. cbv beta iota zeta. fold t1.
    assert (Hns' : Namespace (Meta t') = CanaryNamespace cd)
      by (unfold t'; now rewrite fetched_Meta).
    rewrite Hns'.
    rewrite (Update_ok _ t1 _ t).
    - cbv beta iota. unfold w1. now rewrite !copied_objects.
    - apply quiet_hd, quiet_copied. unfold w1. now apply quiet_after_get.
    - now rewrite Hmeta.
    - rewrite Hmeta, Hname. unfold w1. now rewrite !copied_objects. }
  rewrite Hop. cbn [fst snd]. split; [reflexivity|]. split.
  { apply quiet_with_objects, quiet_logged, quiet_copied. unfold w1. now apply quiet_after_get. }
  exists t1, (next w), (next w1). split.
  { unfold target_of. cbn [objects with_objects].
    rewrite <- Hns at 1. rewrite <- Hname. rewrite <- Hmeta.
    apply lookup_replace_same with (x := t). now rewrite Hmeta, Hns, Hname. }
  split. { reflexivity. }
  split. { unfold t1, t'. cbn [set_NodeSelector Spec Template TemplateMeta]. now rewrite !fetched_Template. }
  split. { unfold t1, t'. cbn [set_NodeSelector Spec Template TemplateSpec Containers].
           now rewrite !fetched_Template. }
  split.
  { cbn [actions with_objects logged]. unfold w1. now rewrite !copied_actions. }
  intros ns n Hne. cbn [objects with_objects].
  apply lookup_replace_other. unfold same_object in *. now rewrite Hmeta.
Qed.

Lemma ScaleToZero_spec cd w t :
  quiet w ->
  target_of cd w = Some t ->
  fst (ScaleToZero cd w) = Returned None /\
  quiet (snd (ScaleToZero cd w)) /\
  exists t1,
    target_of cd (snd (ScaleToZero cd w)) = Some t1 /\
    node_selector t1 = Some (<[ scaleToZeroKey := "true" ]> (go_entries (node_selector t))) /\
    TemplateMeta (Template (Spec t1)) = TemplateMeta (Template (Spec t)) /\
    Containers (TemplateSpec (Template (Spec t1))) = Containers (TemplateSpec (Template (Spec t))) /\
    actions (snd (ScaleToZero cd w)) =
      UpdateAction (CanaryNamespace cd) t1
        :: GetAction (CanaryNamespace cd) (TargetRefName cd) :: actions w /\
    forall ns n, same_object ns n t = false ->
      lookup_object ns n (objects (snd (ScaleToZero cd w))) = lookup_object ns n (objects w).
Proof.
  intros Hq Ht.
  destruct (scale_step cd w t
    (fun cloneset _ =>
       Some (range_assign cloneSetScaleDownNodeSelector
               (range_assign (go_entries (node_selector cloneset)) ∅)))
    "cloneset %s.%s get query error: %w" "updating cloneset %s.%s failed: %w" Hq Ht)
    as (Hr & Hq' & t1 & a & b & H1 & H2 & H3).
  split; [exact Hr|]. split; [exact Hq'|].
  exists t1. split; [exact H1|]. split; [|exact H3].
  rewrite H2, range_assign_marker, range_assign_copy, fetched_node_selector. reflexivity.
Qed.

Lemma ScaleFromZero_spec cd w t :
  quiet w ->
  target_of cd w = Some t ->
  fst (ScaleFromZero cd w) = Returned None /\
  quiet (snd (ScaleFromZero cd w)) /\
  exists t1,
    target_of cd (snd (ScaleFromZero cd w)) = Some t1 /\
    node_selector t1 = go_delete scaleToZeroKey (node_selector t) /\
    TemplateMeta (Template (Spec t1)) = TemplateMeta (Template (Spec t)) /\
    Containers (TemplateSpec (Template (Spec t1))) = Containers (TemplateSpec (Template (Spec t))) /\
    actions (snd (ScaleFromZero cd w)) =
      UpdateAction (CanaryNamespace cd) t1
        :: GetAction (CanaryNamespace cd) (TargetRefName cd) :: actions w /\
    forall ns n, same_object ns n t = false ->
      lookup_object ns n (objects (snd (ScaleFromZero cd w))) = lookup_object ns n (objects w).
Proof.
  intros Hq Ht.
  destruct (scale_step cd w t
    (fun _ clonesetCopy =>
       range_delete cloneSetScaleDownNodeSelector (node_selector clonesetCopy))
    "cloneset %s.%s query error: %w" "scaling up cloneset %s.%s failed: %w" Hq Ht)
    as (Hr & Hq' & t1 & a & b & H1 & H2 & H3).
  split; [exact Hr|]. split; [exact Hq'|].
  exists t1. split; [exact H1|]. split; [|exact H3].
  rewrite H2, range_delete_marker, !fetched_node_selector. reflexivity.
Qed.

Lemma HasTargetChanged_spec computeHash cd w t :
  hd None (faults w) = None ->
  target_of cd w = Some t ->
  fst (HasTargetChanged computeHash cd w)
  = Returned (hasSpecChanged computeHash cd (hashed_template t)).
Proof.
  intros Hf Ht. unfold HasTargetChanged, bind.
  rewrite (Get_found _ _ _ t Hf Ht). cbv beta iota zeta.
  rewrite range_delete_marker, fetched_node_selector. unfold ret. cbn [fst].
  do 2 f_equal. unfold hashed_template, node_selector.
  destruct (NodeSelector (TemplateSpec (Template (Spec t)))) as [g|] eqn:E;
    cbn [go_delete go_entries set_NodeSelector Spec Template TemplateSpec NodeSelector
         TemplateMeta Containers];
    rewrite ?fetched_Template; reflexivity.
Qed.

(** ** Scaling to zero and back *)

(** C7, as amended.  With no request failing, scaling the target to zero twice
    leaves the node selector that scaling it once leaves: the entries it had,
    with the marker.  Scaling from zero after that leaves the entries the
    target had before without the marker key: every other entry is kept
    throughout, and the map is the one before (a nil map read as an empty one)
    when the marker key was not in it. *)
Theorem ScaleFromZero_after_ScaleToZero cd w t :
  quiet w ->
  target_of cd w = Some t ->
  let w1 := snd (ScaleToZero cd w) in
  let w2 := snd (ScaleToZero cd w1) in
  let w3 := snd (ScaleFromZero cd w1) in
  fst (ScaleToZero cd w) = Returned None /\
  fst (ScaleToZero cd w1) = Returned None /\
  fst (ScaleFromZero cd w1) = Returned None /\
  node_selector <$> target_of cd w2 = node_selector <$> target_of cd w1 /\
  node_selector <$> target_of cd w1
    = Some (Some (<[ scaleToZeroKey := "true" ]> (go_entries (node_selector t)))) /\
  node_selector <$> target_of cd w3
    = Some (Some (delete scaleToZeroKey (go_entries (node_selector t)))) /\
  (forall k m, k <> scaleToZeroKey ->
     node_selector <$> target_of cd w1 = Some m \/
     node_selector <$> target_of cd w2 = Some m \/
     node_selector <$> target_of cd w3 = Some m ->
     go_lookup k m = go_lookup k (node_selector t)) /\
  (go_lookup scaleToZeroKey (node_selector t) = None ->
   go_entries <$> (node_selector <$> target_of cd w3) = Some (go_entries (node_selector t))).
Proof.
  intros Hq Ht w1 w2 w3.
  destruct (ScaleToZero_spec cd w t Hq Ht) as (R1 & Q1 & t1 & T1 & S1 & _).
  fold w1 in R1, Q1, T1.
  destruct (ScaleToZero_spec cd w1 t1 Q1 T1) as (R2 & _ & t2 & T2 & S2 & _).
  destruct (ScaleFromZero_spec cd w1 t1 Q1 T1) as (R3 & _ & t3 & T3 & S3 & _).
  fold w2 in T2. fold w3 in T3.
  rewrite S1 in S2, S3. cbn [go_entries go_delete] in S2, S3.
  rewrite insert_insert_eq in S2. rewrite delete_insert_eq in S3.
  rewrite T1, T2, T3. cbn [fmap option_fmap option_map]. rewrite S1, S2, S3.
  repeat split; try assumption.
  - intros k m Hk [H | [H | H]]; injection H as <-; cbn [go_lookup].
    + rewrite lookup_insert_ne by congruence. now destruct (node_selector t).
    + rewrite lookup_insert_ne by congruence. now destruct (node_selector t).
    + rewrite lookup_delete_ne by congruence. now destruct (node_selector t).
  - intros Hk. cbn [go_entries]. f_equal. apply delete_id.
    destruct (node_selector t); [exact Hk | apply lookup_empty].
Qed.

Lemma ScaleFromZero_after_ScaleToZero_witness :
  let cd := Demo.canary "" true in
  let w := Demo.cluster [Demo.target; Demo.primary] [] in
  quiet w /\ target_of cd w = Some Demo.target /\
  fst (ScaleToZero cd w) = Returned None.
Proof.
  intros cd w.
  assert (Hq : quiet w) by constructor.
  assert (Ht : target_of cd w = Some Demo.target) by reflexivity.
  split; [exact Hq|]. split; [exact Ht|].
  exact (proj1 (ScaleFromZero_after_ScaleToZero cd w Demo.target Hq Ht)).
Defined.

(** C7 as stated fails on a target that carries the marker already: scaling
    it to zero and back from zero succeeds and leaves a node selector without
    the marker, not the one it had. *)
Lemma ScaleFromZero_drops_marker_of_scaled_target :
  let cd := Demo.canary "" true in
  let w := Demo.cluster [Demo.scaled_target; Demo.primary] [] in
  let w1 := snd (ScaleToZero cd w) in
  let w3 := snd (ScaleFromZero cd w1) in
  fst (ScaleToZero cd w) = Returned None /\
  fst (ScaleFromZero cd w1) = Returned None /\
  go_entries <$> (node_selector <$> target_of cd w3)
    <> go_entries <$> (node_selector <$> target_of cd w).
Proof.
  intros cd w w1 w3. split; [reflexivity|]. split; [reflexivity|].
  intros H.
  apply (f_equal (fun o => o ≫= (fun m => m !! scaleToZeroKey))) in H.
  vm_compute in H. discriminate H.
Qed.

(** ** Drift detection *)

Lemma hashed_template_ext t t' :
  TemplateMeta (Template (Spec t')) = TemplateMeta (Template (Spec t)) ->
  Containers (TemplateSpec (Template (Spec t'))) = Containers (TemplateSpec (Template (Spec t))) ->
  delete scaleToZeroKey (go_entries (node_selector t'))
    = delete scaleToZeroKey (go_entries (node_selector t)) ->
  hashed_template t' = hashed_template t.
Proof. unfold hashed_template. now intros -> -> ->. Qed.

(** C8.  With no request failing, [HasTargetChanged] answers after the target
    was scaled to zero, and after it was scaled to zero and back, what it
    answers before: when the recorded hash is the hash of the target's own
    template, the answer after the cycle is false.  It answers the same on a
    target whose node selector is nil and on one whose node selector is an
    empty map, the templates being otherwise the same: what is hashed is the
    same template. *)
Theorem HasTargetChanged_ignores_marker computeHash cd w t :
  quiet w ->
  target_of cd w = Some t ->
  let w1 := snd (ScaleToZero cd w) in
  let w3 := snd (ScaleFromZero cd w1) in
  fst (HasTargetChanged computeHash cd w1) = fst (HasTargetChanged computeHash cd w) /\
  fst (HasTargetChanged computeHash cd w3) = fst (HasTargetChanged computeHash cd w) /\
  (LastAppliedSpec cd = computeHash (hashed_template t) ->
   fst (HasTargetChanged computeHash cd w3) = Returned (false, None)) /\
  (forall w' t',
     hd None (faults w') = None ->
     target_of cd w' = Some t' ->
     TemplateMeta (Template (Spec t')) = TemplateMeta (Template (Spec t)) ->
     Containers (TemplateSpec (Template (Spec t'))) = Containers (TemplateSpec (Template (Spec t))) ->
     node_selector t = None ->
     node_selector t' = Some ∅ ->
     hashed_template t' = hashed_template t /\
     fst (HasTargetChanged computeHash cd w') = fst (HasTargetChanged computeHash cd w)).
Proof.
  intros Hq Ht w1 w3.
  destruct (ScaleToZero_spec cd w t Hq Ht) as (_ & Q1 & t1 & T1 & S1 & M1 & C1 & _).
  fold w1 in Q1, T1.
  destruct (ScaleFromZero_spec cd w1 t1 Q1 T1) as (_ & Q3 & t3 & T3 & S3 & M3 & C3 & _).
  fold w3 in Q3, T3.
  rewrite (HasTargetChanged_spec computeHash cd w t (quiet_hd _ Hq) Ht).
  rewrite (HasTargetChanged_spec computeHash cd w1 t1 (quiet_hd _ Q1) T1).
  rewrite (HasTargetChanged_spec computeHash cd w3 t3 (quiet_hd _ Q3) T3).
  assert (E1 : hashed_template t1 = hashed_template t).
  { apply hashed_template_ext; [assumption | assumption |].
    rewrite S1. cbn [go_entries]. apply delete_insert_eq. }
  assert (E3 : hashed_template t3 = hashed_template t).
  { apply hashed_template_ext; [congruence | congruence |].
    rewrite S3, S1. cbn [go_entries go_delete].
    rewrite delete_delete_eq. apply delete_insert_eq. }
  rewrite E1, E3. split; [reflexivity|]. split; [reflexivity|]. split.
  - intros Hrec. unfold hasSpecChanged. now rewrite Hrec, String.eqb_refl.
  - intros w' t' Hf' Ht' Hm Hc Hn Hn'.
    assert (E : hashed_template t' = hashed_template t).
    { apply hashed_template_ext; [assumption | assumption |]. now rewrite Hn, Hn'. }
    split; [exact E|].
    rewrite (HasTargetChanged_spec computeHash cd w' t' Hf' Ht'). now rewrite E.
Qed.

Lemma HasTargetChanged_ignores_marker_witness :
  let cd := Demo.canary "Progressing" false in
  let w := Demo.cluster [Demo.target; Demo.primary] [] in
  quiet w /\ target_of cd w = Some Demo.target /\
  fst (HasTargetChanged Demo.computeHash cd (snd (ScaleFromZero cd (snd (ScaleToZero cd w)))))
  = Returned (false, None).
Proof.
  intros cd w.
  assert (Hq : quiet w) by constructor.
  assert (Ht : target_of cd w = Some Demo.target) by reflexivity.
  split; [exact Hq|]. split; [exact Ht|].
  apply (HasTargetChanged_ignores_marker Demo.computeHash cd w Demo.target Hq Ht).
  reflexivity.
Defined.

(** ** Invariants of the requests *)

Lemma keeps_ret I {A} (a : A) (Q : A -> Prop) : Q a -> keeps I (ret a) Q.
Proof. intros HQ w HI. split; [exact HI|]. intros a' [= <-]. exact HQ. Qed.

Lemma keeps_bind I {A B} (m : M A) (k : A -> M B) (Q : A -> Prop) (Q' : B -> Prop) :
  keeps I m Q -> (forall a, Q a -> keeps I (k a) Q') -> keeps I (bind m k) Q'.
Proof.
  intros Hm Hk w HI. destruct (Hm w HI) as [HI' HQ]. unfold bind.
  destruct (m w) as [[a|] w']; cbn [fst snd] in *.
  - apply (Hk a (HQ a eq_refl) w' HI').
  - split; [exact HI'|]. discriminate.
Qed.

Lemma keeps_lift I {A} (o : outcome A) : keeps I (lift o) (fun a => o = Returned a).
Proof. intros w HI. split; [exact HI|]. intros a H. exact H. Qed.

Lemma keeps_alloc I v : read_stable I -> keeps I (alloc v) (fun p => pointee p = v).
Proof.
  intros HS w HI. split; [now apply (stable_alloc I HS)|]. now intros a [= <-].
Qed.

Lemma keeps_DeepCopy I o :
  read_stable I -> keeps I (DeepCopy o) (fun o' => exists a, o' = fetched o a).
Proof.
  intros HS w HI. rewrite DeepCopy_eq. cbn [fst snd]. split.
  - unfold copied. destruct (Replicas (Spec o)); [now apply (stable_alloc I HS) | exact HI].
  - intros a [= <-]. now exists (next w).
Qed.

(** What a [Get] answers: the object of that name, a not-found when the API
    holds none, or the failure injected. *)
Lemma keeps_Get I ns n :
  read_stable I ->
  keeps I (Get ns n)
    (fun r => match r with
              | inl o => Namespace (Meta o) = ns /\ Name (Meta o) = n
              | inr e => True
              end).
Proof.
  intros HS w HI.
  destruct (hd None (faults w)) as [f|] eqn:Hf.
  - rewrite (Get_fault _ _ _ f Hf). cbn [fst snd]. split; [now apply (stable_get I HS)|].
    now intros a [= <-].
  - destruct (lookup_object ns n (objects w)) as [o|] eqn:Hl.
    + rewrite (Get_found _ _ _ o Hf Hl). cbn [fst snd]. split.
      * unfold copied. destruct (Replicas (Spec o)).
        -- apply (stable_alloc I HS), (stable_get I HS), HI.
        -- now apply (stable_get I HS).
      * intros a [= <-]. rewrite fetched_Meta. now apply lookup_object_key in Hl.
    + rewrite (Get_missing _ _ _ Hf Hl). cbn [fst snd]. split; [now apply (stable_get I HS)|].
      now intros a [= <-].
Qed.

(** A [Get] of an object that the API holds never answers not-found. *)
Lemma keeps_Get_existing I ns n :
  read_stable I ->
  (forall w, I w -> is_Some (lookup_object ns n (objects w))) ->
  keeps I (Get ns n)
    (fun r => IsNotFound (match r with inr err => Some err | inl _ => None end) = false).
Proof.
  intros HS Hex w HI.
  destruct (hd None (faults w)) as [f|] eqn:Hf.
  - rewrite (Get_fault _ _ _ f Hf). cbn [fst snd]. split; [now apply (stable_get I HS)|].
    intros a [= <-]. now destruct f.
  - destruct (Hex w HI) as [o Hl].
    rewrite (Get_found _ _ _ o Hf Hl). cbn [fst snd]. split.
    + unfold copied. destruct (Replicas (Spec o)).
      * apply (stable_alloc I HS), (stable_get I HS), HI.
      * now apply (stable_get I HS).
    + now intros a [= <-].
Qed.

Lemma keeps_Update I ns o : update_stable I o -> keeps I (Update ns o) (fun _ => True).
Proof.
  intros HU w HI. destruct (HU ns w HI) as [H1 H2].
  split; [|trivial].
  unfold Update, bind, request, get_objects, set_objects, ret.
  destruct (hd None (faults w)); cbv beta iota; [exact H1|].
  destruct (negb _); cbv beta iota; [exact H1|].
  cbn [objects logged].
  destruct (lookup_object ns (Name (Meta o)) (objects w)); cbv beta iota; cbn [snd]; assumption.
Qed.

(** The classifier reads the object it is given and nothing else. *)
Lemma isCloneSetReady_state cs d w : snd (isCloneSetReady cs d w) = w.
Proof.
  unfold isCloneSetReady, getCloneSetCondition, reason_is, bind, ret.
  destruct (_ <=? _)%Z; [|reflexivity]. cbv beta iota.
  repeat match goal with |- context [if ?b then _ else _] => destruct b end; reflexivity.
Qed.

Lemma keeps_isCloneSetReady I cs d : keeps I (isCloneSetReady cs d) (fun _ => True).
Proof. intros w HI. rewrite isCloneSetReady_state. now split. Qed.

Section Frames.

Variable makeAnnotations : gomap -> gomap + error.
Variable includeLabelsByPrefix : gomap -> list string -> gomap.
Variable canaryAPIVersion : string.
Variable CanaryKind : string.
Variable c : CloneSetController.

Local Abbreviation createPrimaryCloneSet :=
  (createPrimaryCloneSet makeAnnotations includeLabelsByPrefix canaryAPIVersion CanaryKind c).
Local Abbreviation Initialize :=
  (Initialize makeAnnotations includeLabelsByPrefix canaryAPIVersion CanaryKind c).

(** With the primary held by the API, the creation step reads and does
    nothing else. *)
Lemma createPrimaryCloneSet_existing_keeps I cd prefixes :
  read_stable I ->
  (forall w, I w -> is_Some (primary_of cd w)) ->
  keeps I (createPrimaryCloneSet cd prefixes) (fun _ => True).
Proof.
  intros HS Hex. unfold createPrimaryCloneSet.
  eapply keeps_bind; [apply keeps_Get, HS|].
  intros [target|err] _; [|now apply keeps_ret].
  destruct (_ && _); [now apply keeps_ret|].
  eapply keeps_bind; [apply keeps_lift|].
  intros [[label labelValue] [err|]] _; [now apply keeps_ret|].
  eapply keeps_bind; [apply keeps_Get_existing; [exact HS | exact Hex]|].
  intros r Hr. cbv beta in Hr. rewrite Hr. now apply keeps_ret.
Qed.

Lemma IsPrimaryReady_keeps I cd :
  read_stable I -> keeps I (IsPrimaryReady cd) (fun _ => True).
Proof.
  intros HS. unfold IsPrimaryReady.
  eapply keeps_bind; [apply keeps_Get, HS|].
  intros [primary|err] _; [|now apply keeps_ret].
  eapply keeps_bind; [apply keeps_isCloneSetReady|].
  intros [retriable [err|]] _; cbn [snd]; [now apply keeps_ret|].
  eapply keeps_bind.
  { unfold int32p. eapply keeps_bind; [apply keeps_alloc, HS|].
    intros p _. apply keeps_ret with (Q := fun _ => True). trivial. }
  intros zero _. destruct (ptr_eq _ _); now apply keeps_ret.
Qed.

Lemma ScaleToZero_keeps I cd :
  read_stable I ->
  (forall o, Name (Meta o) = TargetRefName cd -> update_stable I o) ->
  keeps I (ScaleToZero cd) (fun _ => True).
Proof.
  intros HS HU. unfold ScaleToZero.
  eapply keeps_bind; [apply keeps_Get, HS|].
  intros [cloneset|err] Hget; [|now apply keeps_ret].
  eapply keeps_bind; [apply keeps_DeepCopy, HS|].
  intros clonesetCopy [a ->]. cbv zeta.
  eapply keeps_bind.
  { apply keeps_Update, HU. cbn [set_NodeSelector Meta]. rewrite fetched_Meta. apply Hget. }
  intros [err|] _; now apply keeps_ret.
Qed.

Lemma Initialize_existing_keeps I cd :
  read_stable I ->
  (forall o, Name (Meta o) = TargetRefName cd -> update_stable I o) ->
  (forall w, I w -> is_Some (primary_of cd w)) ->
  keeps I (Initialize cd) (fun _ => True).
Proof.
  intros HS HU Hex. unfold Initialize.
  eapply keeps_bind; [now apply createPrimaryCloneSet_existing_keeps|].
  intros [err|] _; [now apply keeps_ret|].
  destruct (initial_phase cd); [|now apply keeps_ret].
  eapply keeps_bind.
  { destruct (negb (SkipAnalysis cd)).
    - now apply IsPrimaryReady_keeps.
    - apply keeps_ret with (Q := fun _ => True). trivial. }
  intros [err|] _; [now apply keeps_ret|].
  eapply keeps_bind; [now apply ScaleToZero_keeps|].
  intros [err|] _; now apply keeps_ret.
Qed.

(** ** Creation of the primary *)

(** C9.  When the API holds the primary, [createPrimaryCloneSet] leaves the
    objects as they are and makes no create and no update request, whatever
    requests fail.  [Initialize], which runs it, leaves the primary as it is
    and makes no create or update request for an object of the primary's
    name. *)
Theorem createPrimaryCloneSet_existing_primary cd prefixes w p :
  primary_of cd w = Some p ->
  let w1 := snd (createPrimaryCloneSet cd prefixes w) in
  let w2 := snd (Initialize cd w) in
  objects w1 = objects w /\
  writes w1 = writes w /\
  primary_of cd w2 = Some p /\
  writes_of (TargetRefName cd +:+ "-primary") w2
    = writes_of (TargetRefName cd +:+ "-primary") w.
Proof.
  intros Hp w1 w2.
  set (I1 := fun w' => objects w' = objects w /\ writes w' = writes w).
  set (I2 := fun w' => primary_of cd w' = Some p /\
                       writes_of (TargetRefName cd +:+ "-primary") w'
                       = writes_of (TargetRefName cd +:+ "-primary") w).
  assert (S1 : read_stable I1).
  { split; intros; exact H. }
  assert (S2 : read_stable I2).
  { split; intros; exact H. }
  assert (U2 : forall o, Name (Meta o) = TargetRefName cd -> update_stable I2 o).
  { intros o Ho ns w' [H1 H2].
    assert (Hn : String.eqb (Name (Meta o)) (TargetRefName cd +:+ "-primary") = false).
    { apply String.eqb_neq. rewrite Ho. intros E. now apply (primary_name_differs (TargetRefName cd)). }
    unfold I2, primary_of, writes_of. cbn [objects actions with_objects logged List.filter writes_to].
    rewrite Hn. split; [split; assumption|]. split; [|assumption].
    rewrite lookup_replace_other; [exact H1|].
    unfold same_object. rewrite Hn. apply andb_false_r. }
  destruct (createPrimaryCloneSet_existing_keeps I1 cd prefixes S1) with (w := w) as [[H1 H2] _].
  { intros w' [Ho _]. unfold primary_of in *. rewrite Ho, Hp. now eexists. }
  { now split. }
  destruct (Initialize_existing_keeps I2 cd S2 U2) with (w := w) as [[H3 H4] _].
  { intros w' [Ho _]. rewrite Ho. now eexists. }
  { now split. }
  repeat split; assumption.
Qed.

End Frames.

(** ** Selector resolution *)

Lemma getSelectorLabel_from_fetched c rest o a :
  getSelectorLabel_from c rest (fetched o a) = getSelectorLabel_from c rest o.
Proof.
  induction rest as [|l rest IH]; cbn [getSelectorLabel_from].
  - now rewrite fetched_Meta.
  - rewrite fetched_Selector. destruct (Selector (Spec o)); [|reflexivity].
    destruct (go_lookup l _); [reflexivity | exact IH].
Qed.

Lemma getSelectorLabel_fetched c o a :
  getSelectorLabel c (fetched o a) = getSelectorLabel c o.
Proof. apply getSelectorLabel_from_fetched. Qed.

Lemma getSelectorLabel_from_first c cs sel pre k post v :
  Selector (Spec cs) = Some sel ->
  (forall x, In x pre -> go_lookup x (MatchLabels sel) = None) ->
  go_lookup k (MatchLabels sel) = Some v ->
  getSelectorLabel_from c (pre ++ k :: post) cs = Returned (k, v, None).
Proof.
  intros Hsel Hpre Hk. induction pre as [|x pre IH]; cbn [app getSelectorLabel_from]; rewrite Hsel.
  - now rewrite Hk.
  - rewrite (Hpre x) by now left. apply IH. intros y Hy. apply Hpre. now right.
Qed.

Lemma getSelectorLabel_from_none c cs sel rest :
  Selector (Spec cs) = Some sel ->
  (forall x, In x rest -> go_lookup x (MatchLabels sel) = None) ->
  getSelectorLabel_from c rest cs =
    Returned ("", "",
              Some (Errorf "cloneset %s.%s spec.selector.matchLabels must contain one of %v'"
                      [AStr (Name (Meta cs)); AStr (Namespace (Meta cs)); AStrs (labels c)])).
Proof.
  intros Hsel Hnone. induction rest as [|x rest IH]; cbn [getSelectorLabel_from]; [reflexivity|].
  rewrite Hsel, (Hnone x) by now left. apply IH. intros y Hy. apply Hnone. now right.
Qed.

Lemma getSelectorLabel_from_only c cs sel rest k v :
  Selector (Spec cs) = Some sel ->
  In k rest ->
  go_lookup k (MatchLabels sel) = Some v ->
  (forall k', In k' rest -> is_Some (go_lookup k' (MatchLabels sel)) -> k' = k) ->
  getSelectorLabel_from c rest cs = Returned (k, v, None).
Proof.
  intros Hsel Hin Hk Honly. induction rest as [|x rest IH]; [destruct Hin|].
  cbn [getSelectorLabel_from]. rewrite Hsel.
  destruct (go_lookup x (MatchLabels sel)) as [v'|] eqn:Hx.
  - assert (x = k) as ->.
    { apply Honly; [now left|]. rewrite Hx. now exists v'. }
    congruence.
  - apply IH.
    + destruct Hin as [-> | Hin]; [congruence | exact Hin].
    + intros k' Hk'. apply Honly. now right.
Qed.

(** C3, as amended.  For a target that has a selector, resolution returns the
    first key of the configured list, in its order, that the match-labels
    contain, with its value: the only such key when there is exactly one, the
    first when there are several.  When the match-labels contain no key of the
    list, resolution fails with the configuration error. *)
Theorem getSelectorLabel_first_present c cs sel :
  Selector (Spec cs) = Some sel ->
  (forall k v,
     In k (labels c) ->
     go_lookup k (MatchLabels sel) = Some v ->
     (forall k', In k' (labels c) -> is_Some (go_lookup k' (MatchLabels sel)) -> k' = k) ->
     getSelectorLabel c cs = Returned (k, v, None)) /\
  (forall pre k post v,
     labels c = (pre ++ k :: post)%list ->
     (forall x, In x pre -> go_lookup x (MatchLabels sel) = None) ->
     go_lookup k (MatchLabels sel) = Some v ->
     getSelectorLabel c cs = Returned (k, v, None)) /\
  ((forall k, In k (labels c) -> go_lookup k (MatchLabels sel) = None) ->
   getSelectorLabel c cs =
     Returned ("", "",
               Some (Errorf "cloneset %s.%s spec.selector.matchLabels must contain one of %v'"
                       [AStr (Name (Meta cs)); AStr (Namespace (Meta cs)); AStrs (labels c)]))).
Proof.
  intros Hsel. unfold getSelectorLabel. split; [|split].
  - intros k v Hin Hk Honly. now apply getSelectorLabel_from_only with (sel := sel).
  - intros pre k post v -> Hpre Hk. now apply getSelectorLabel_from_first with (sel := sel).
  - intros Hnone. now apply getSelectorLabel_from_none with (sel := sel).
Qed.

Lemma getSelectorLabel_first_present_witness :
  Selector (Spec Demo.target) = Some {| MatchLabels := Some {[ "app" := "demo" ]} |} /\
  getSelectorLabel Demo.controller Demo.target = Returned ("app", "demo", None).
Proof.
  split; [reflexivity|].
  apply (getSelectorLabel_first_present Demo.controller Demo.target _ eq_refl).
  - left. reflexivity.
  - reflexivity.
  - intros k' [<- | [<- | []]] Hk'; [reflexivity|].
    vm_compute in Hk'. destruct Hk' as [x Hx]. discriminate Hx.
Defined.

(** C3 as stated fails where the match-labels contain two keys of the list:
    resolution, and [GetMetadata] with it, returns the first of them and no
    error. *)
Lemma getSelectorLabel_two_keys_present :
  let cd := Demo.canary "" true in
  let w := Demo.cluster [Demo.two_label_target; Demo.primary] [] in
  labels Demo.controller = ["app"; "name"] /\
  (exists sel,
     Selector (Spec Demo.two_label_target) = Some sel /\
     go_lookup "app" (MatchLabels sel) = Some "demo" /\
     go_lookup "name" (MatchLabels sel) = Some "demo-x") /\
  getSelectorLabel Demo.controller Demo.two_label_target = Returned ("app", "demo", None) /\
  fst (GetMetadata (fun _ _ => ∅) Demo.controller cd w) = Returned ("app", "demo", None, None).
Proof.
  intros cd w. split; [reflexivity|]. split.
  - eexists. split; [reflexivity|]. split; reflexivity.
  - split; reflexivity.
Qed.

(** ** Promotion *)

Section Promotion.

Variable makeAnnotations : gomap -> gomap + error.
Variable c : CloneSetController.

Local Abbreviation Promote := (Promote makeAnnotations c).

(** C10.  On a target whose min-ready-seconds is 5 and a primary whose
    min-ready-seconds is 0, with no request failing, the selector label
    resolved and the tracker and the annotations succeeding, [Promote]
    succeeds and its last request is the update of the primary with an object
    whose min-ready-seconds is 5, whose pod template labels have the primary
    selector value under the resolved label and whose node selector has no
    scale-to-zero marker; that object is the primary held afterwards.  Nothing
    is asked of the target's node selector nor of what the tracker makes of the
    pod spec. *)
Theorem Promote_writes_primary cd w t p label labelValue refs annotations :
  quiet w ->
  target_of cd w = Some t ->
  primary_of cd w = Some p ->
  getSelectorLabel c t = Returned (label, labelValue, None) ->
  GetTargetConfigs (configTracker c) cd = inl refs ->
  CreatePrimaryConfigs (configTracker c) cd refs (includeLabelPrefix c) = None ->
  makeAnnotations (Annotations (TemplateMeta (Template (Spec t)))) = inl annotations ->
  MinReadySeconds (Spec t) = 5 ->
  MinReadySeconds (Spec p) = 0 ->
  exists p',
    fst (Promote cd w) = Returned None /\
    primary_of cd (snd (Promote cd w)) = Some p' /\
    hd_error (actions (snd (Promote cd w))) = Some (UpdateAction (CanaryNamespace cd) p') /\
    MinReadySeconds (Spec p') = 5 /\
    go_lookup label (Labels (TemplateMeta (Template (Spec p'))))
      = Some (labelValue +:+ "-primary") /\
    go_lookup scaleToZeroKey (node_selector p') = None.
Proof.
  intros Hq Ht Hp Hsel Hrefs Hcreate Hann Ht5 _.
  unfold target_of in Ht. unfold primary_of in Hp.
  pose proof (lookup_object_key _ _ _ _ Hp) as [Hns Hname].
  set (w1 := copied t (logged (GetAction (CanaryNamespace cd) (TargetRefName cd)) w)).
  assert (Q1 : quiet w1) by now apply quiet_after_get.
  assert (O1 : objects w1 = objects w) by (unfold w1; now rewrite copied_objects).
  set (w2 := copied p (logged (GetAction (CanaryNamespace cd) (TargetRefName cd +:+ "-primary")) w1)).
  assert (Q2 : quiet w2) by now apply quiet_after_get.
  assert (O2 : objects w2 = objects w) by (unfold w2; now rewrite copied_objects).
  set (p1 := fetched p (next w1)).
  set (w3 := copied p1 w2).
  assert (Q3 : quiet w3) by now apply quiet_copied.
  assert (O3 : objects w3 = objects w) by (unfold w3; now rewrite copied_objects).
  unfold Promote, bind.
  rewrite (Get_found _ _ _ t (quiet_hd _ Hq) Ht). cbv beta iota. fold w1.
  unfold lift. rewrite getSelectorLabel_fetched, Hsel. cbv beta iota.
  rewrite (Get_found _ _ _ p (quiet_hd _ Q1)) by (rewrite O1; exact Hp).
  cbv beta iota. fold w2 p1.
  rewrite Hrefs, Hcreate. rewrite DeepCopy_eq. cbv beta iota zeta. fold w3.
  rewrite fetched_Template, Hann.
  match goal with |- context [Update ?ns ?o ?w'] => set (p' := o) end.
  assert (Hmeta : Meta p' = Meta p).
  { unfold p', p1. cbn [Meta]. now rewrite !fetched_Meta. }
  rewrite (Update_ok _ p' _ p).
  2: { now apply quiet_hd. }
  2: { now rewrite Hmeta. }
  2: { now rewrite Hmeta, Hname, O3. }
  cbv beta iota. exists p'. cbn [fst snd actions with_objects logged objects hd_error].
  split; [reflexivity|]. split.
  { unfold primary_of. rewrite <- Hns at 1. rewrite <- Hname, <- Hmeta.
    apply lookup_replace_same with (x := p). now rewrite Hmeta, Hns, Hname, O3. }
  split; [reflexivity|]. split.
  { unfold p'. cbn [Spec MinReadySeconds]. now rewrite fetched_MinReadySeconds. }
  split.
  { unfold p', makePrimaryLabels. cbn [Spec Template TemplateMeta Labels go_lookup].
    apply lookup_insert_eq. }
  unfold p', node_selector, set_NodeSelector_pod.
  cbn [Spec Template TemplateSpec NodeSelector].
  rewrite range_delete_marker.
  destruct (NodeSelector _); cbn [go_delete go_lookup]; [apply lookup_delete_eq | reflexivity].
Qed.

End Promotion.

(** ** Initialization *)

Lemma IsPrimaryReady_actions cd w :
  actions (snd (IsPrimaryReady cd w))
  = GetAction (CanaryNamespace cd) (TargetRefName cd +:+ "-primary") :: actions w.
Proof.
  unfold IsPrimaryReady, bind.
  destruct (Get_frame (CanaryNamespace cd) (TargetRefName cd +:+ "-primary") w)
    as (r & w1 & -> & _ & _ & Ha).
  destruct r as [primary|err]; [|exact Ha].
  pose proof (isCloneSetReady_state primary (ProgressDeadlineSeconds cd) w1) as Hs.
  destruct (isCloneSetReady primary (ProgressDeadlineSeconds cd) w1) as [[[retriable [err|]]|] w2];
    cbn [snd] in Hs; subst w2; cbn [snd]; try exact Ha.
  unfold int32p, bind, alloc, ret. cbv beta iota.
  destruct (ptr_eq _ _); exact Ha.
Qed.

Section Initialization.

Variable makeAnnotations : gomap -> gomap + error.
Variable includeLabelsByPrefix : gomap -> list string -> gomap.
Variable canaryAPIVersion : string.
Variable CanaryKind : string.
Variable c : CloneSetController.

Local Abbreviation createPrimaryCloneSet :=
  (createPrimaryCloneSet makeAnnotations includeLabelsByPrefix canaryAPIVersion CanaryKind c).
Local Abbreviation Initialize :=
  (Initialize makeAnnotations includeLabelsByPrefix canaryAPIVersion CanaryKind c).

(** C6, as amended.  Outside the initial phase, and when the creation step
    fails, [Initialize] leaves the state that the creation step leaves: no
    readiness verification, no scaling.  In the initial phase, after a
    creation step that succeeded, it verifies the readiness of the primary
    when and only when analysis is not skipped, and it scales the target to
    zero whether analysis is skipped or not, unless that verification
    failed. *)
Theorem Initialize_readiness_and_scaling cd w :
  let created := createPrimaryCloneSet cd (includeLabelPrefix c) w in
  let w1 := snd created in
  (initial_phase cd = false -> snd (Initialize cd w) = w1) /\
  (fst created <> Returned None -> snd (Initialize cd w) = w1) /\
  (fst created = Returned None -> initial_phase cd = true ->
   (SkipAnalysis cd = true ->
    snd (Initialize cd w) = snd (ScaleToZero cd w1)) /\
   (SkipAnalysis cd = false ->
    let ready := IsPrimaryReady cd w1 in
    (fst ready = Returned None ->
     snd (Initialize cd w) = snd (ScaleToZero cd (snd ready))) /\
    (fst ready <> Returned None -> snd (Initialize cd w) = snd ready))).
Proof.
  intros created w1. unfold Initialize, bind. fold created.
  subst w1. destruct created as [[[err|]|] w1]; cbn [fst snd].
  - split; [now intros|]. split; [now intros|]. discriminate.
  - split; [now intros ->|]. split; [congruence|].
    intros _ ->. split.
    + intros ->. cbn [negb]. unfold ret at 1. cbv beta iota.
      destruct (ScaleToZero cd w1) as [[[err|]|] w2]; reflexivity.
    + intros ->. cbn [negb]. cbv zeta.
      destruct (IsPrimaryReady cd w1) as [[[err|]|] w2]; cbn [fst snd].
      * split; [discriminate | reflexivity].
      * split; [|congruence]. intros _.
        destruct (ScaleToZero cd w2) as [[[err|]|] w3]; reflexivity.
      * split; [discriminate | reflexivity].
  - split; [now intros|]. split; [now intros|]. discriminate.
Qed.

End Initialization.

Lemma Initialize_readiness_and_scaling_witness :
  let cd := Demo.canary "Progressing" false in
  let w := Demo.cluster [Demo.target; Demo.primary] [] in
  initial_phase cd = false /\
  snd (Initialize Demo.makeAnnotations Demo.includeLabelsByPrefix "flagger.app/v1beta1" "Canary"
         Demo.controller cd w)
  = snd (createPrimaryCloneSet Demo.makeAnnotations Demo.includeLabelsByPrefix
           "flagger.app/v1beta1" "Canary" Demo.controller cd
           (includeLabelPrefix Demo.controller) w).
Proof.
  intros cd w. split; [reflexivity|].
  exact (proj1 (Initialize_readiness_and_scaling Demo.makeAnnotations
                  Demo.includeLabelsByPrefix "flagger.app/v1beta1" "Canary"
                  Demo.controller cd w) eq_refl).
Defined.

(** C6 as stated fails in the initial phase with analysis skipped:
    [Initialize] makes no readiness request and scales the target to zero. *)
Lemma Initialize_scales_when_analysis_is_skipped :
  let cd := Demo.canary "" true in
  let w := Demo.cluster [Demo.target; Demo.primary] [] in
  let w' := snd (Initialize Demo.makeAnnotations Demo.includeLabelsByPrefix
                   "flagger.app/v1beta1" "Canary" Demo.controller cd w) in
  initial_phase cd = true /\
  SkipAnalysis cd = true /\
  fst (Initialize Demo.makeAnnotations Demo.includeLabelsByPrefix
         "flagger.app/v1beta1" "Canary" Demo.controller cd w) = Returned None /\
  option_map (fun t => go_lookup scaleToZeroKey (node_selector t)) (target_of cd w) = Some None /\
  option_map (fun t => go_lookup scaleToZeroKey (node_selector t)) (target_of cd w')
    = Some (Some "true") /\
  (exists o,
     actions w' = [UpdateAction "ns" o; GetAction "ns" "demo";
                   GetAction "ns" "demo-primary"; GetAction "ns" "demo"] /\
     Name (Meta o) = "demo").
Proof.
  intros cd w w'. repeat (split; [reflexivity|]).
  eexists. split; reflexivity.
Qed.

(** ** Validation and failures of the creation step *)

Section Creation.

Variable makeAnnotations : gomap -> gomap + error.
Variable includeLabelsByPrefix : gomap -> list string -> gomap.
Variable canaryAPIVersion : string.
Variable CanaryKind : string.
Variable c : CloneSetController.

Local Abbreviation createPrimaryCloneSet :=
  (createPrimaryCloneSet makeAnnotations includeLabelsByPrefix canaryAPIVersion CanaryKind c).
Local Abbreviation Initialize :=
  (Initialize makeAnnotations includeLabelsByPrefix canaryAPIVersion CanaryKind c).


(** C5.  The read of the primary in the creation step fails with an injected
    failure, after the target was read, its strategy accepted and its selector
    label resolved: [createPrimaryCloneSet] returns nil, having made the two
    reads and nothing else, and so does [Initialize] outside the initial
    phase. *)
Theorem createPrimaryCloneSet_drops_failed_get cd prefixes w t f rest label labelValue :
  faults w = None :: Some f :: rest ->
  target_of cd w = Some t ->
  Type_ (UpdateStrategy (Spec t)) = "" \/
    Type_ (UpdateStrategy (Spec t)) = RecreateCloneSetUpdateStrategyType ->
  getSelectorLabel c t = Returned (label, labelValue, None) ->
  fst (Get (CanaryNamespace cd) (TargetRefName cd +:+ "-primary")
         (copied t (logged (GetAction (CanaryNamespace cd) (TargetRefName cd)) w)))
    = Returned (inr (StatusError (fault_reason f))) /\
  fst (createPrimaryCloneSet cd prefixes w) = Returned None /\
  actions (snd (createPrimaryCloneSet cd prefixes w))
    = GetAction (CanaryNamespace cd) (TargetRefName cd +:+ "-primary")
        :: GetAction (CanaryNamespace cd) (TargetRefName cd) :: actions w /\
  (initial_phase cd = false -> fst (Initialize cd w) = Returned None).
Proof.
  intros Hfaults Ht Hs Hsel.
  assert (Hf : hd None (faults w) = None) by now rewrite Hfaults.
  set (w1 := copied t (logged (GetAction (CanaryNamespace cd) (TargetRefName cd)) w)).
  assert (Hf1 : hd None (faults w1) = Some f).
  { unfold w1. rewrite copied_faults. cbn [faults logged]. now rewrite Hfaults. }
  assert (Hgen : forall pfx,
    createPrimaryCloneSet cd pfx w =
      (Returned None,
       logged (GetAction (CanaryNamespace cd) (TargetRefName cd +:+ "-primary")) w1)).
  { intros pfx. unfold createPrimaryCloneSet, bind.
    rewrite (Get_found _ _ _ t Hf Ht). cbv beta iota zeta. fold w1.
    rewrite fetched_UpdateStrategy.
    replace (negb (String.eqb (Type_ (UpdateStrategy (Spec t))) "")
             && negb (String.eqb (Type_ (UpdateStrategy (Spec t)))
                        RecreateCloneSetUpdateStrategyType)) with false
      by (destruct Hs as [-> | ->]; reflexivity).
    unfold lift. rewrite getSelectorLabel_fetched, Hsel. cbv beta iota.
    rewrite (Get_fault _ _ _ f Hf1). cbv beta iota.
    now destruct f. }
  split; [now rewrite (Get_fault _ _ _ f Hf1)|].
  rewrite Hgen. cbn [fst snd actions logged]. split; [reflexivity|]. split.
  - unfold w1. now rewrite copied_actions.
  - intros Hphase. unfold Initialize, bind. rewrite Hgen. cbv beta iota. now rewrite Hphase.
Qed.

End Creation.


(** A target of the recreate strategy passes the validation; without a
    primary, the primary is created from it. *)
Lemma createPrimaryCloneSet_creates_from_recreate_target :
  let cd := Demo.canary "" false in
  let t := Demo.cloneset "demo" {[ "app" := "demo" ]} None
             RecreateCloneSetUpdateStrategyType 5 (Some 2) in
  let w := Demo.cluster [t] [] in
  let w' := snd (createPrimaryCloneSet Demo.makeAnnotations Demo.includeLabelsByPrefix
                   "flagger.app/v1beta1" "Canary" Demo.controller cd [] w) in
  fst (createPrimaryCloneSet Demo.makeAnnotations Demo.includeLabelsByPrefix
         "flagger.app/v1beta1" "Canary" Demo.controller cd [] w) = Returned None /\
  primary_of cd w = None /\
  (exists p, primary_of cd w' = Some p /\
             hd_error (actions w') = Some (CreateAction "ns" p) /\
             Type_ (UpdateStrategy (Spec p)) = RecreateCloneSetUpdateStrategyType).
Proof.
  intros cd t w w'. split; [reflexivity|]. split; [reflexivity|].
  eexists. split; [reflexivity|]. split; reflexivity.
Qed.

Lemma createPrimaryCloneSet_drops_failed_get_witness :
  let cd := Demo.canary "Progressing" false in
  let w := Demo.cluster [Demo.target] [None; Some FServerTimeout] in
  faults w = [None; Some FServerTimeout] /\
  fst (createPrimaryCloneSet Demo.makeAnnotations Demo.includeLabelsByPrefix
         "flagger.app/v1beta1" "Canary" Demo.controller cd [] w) = Returned None /\
  fst (Initialize Demo.makeAnnotations Demo.includeLabelsByPrefix
         "flagger.app/v1beta1" "Canary" Demo.controller cd w) = Returned None.
Proof.
  intros cd w. split; [reflexivity|].
  pose proof (createPrimaryCloneSet_drops_failed_get Demo.makeAnnotations
                Demo.includeLabelsByPrefix "flagger.app/v1beta1" "Canary" Demo.controller
                cd [] w Demo.target FServerTimeout [] "app" "demo"
                eq_refl eq_refl (or_introl eq_refl) eq_refl) as (_ & H1 & _ & H2).
  split; [exact H1 | exact (H2 eq_refl)].
Defined.

(** ** Readiness *)

(** C4.  The condition lookup returns no condition.  Whatever the CloneSet, the
    deadline and the state, [isCloneSetReady] returns, reads no clock, answers
    retriable and never the exceeded-its-progress-deadline error; the
    retriable answer of [IsCanaryReady] is always true. *)
Theorem isCloneSetReady_never_fatal cs deadline w :
  getCloneSetCondition = None /\
  (exists v,
     isCloneSetReady cs deadline w = (Returned v, w) /\
     fst v = true /\
     forall args, snd v <> Some (Errorf "cloneset %q exceeded its progress deadline" args)) /\
  (forall cd, exists v w', IsCanaryReady cd w = (Returned v, w') /\ fst v = true).
Proof.
  assert (H : forall cs' d w0,
    exists v, isCloneSetReady cs' d w0 = (Returned v, w0) /\ fst v = true /\
      forall args, snd v <> Some (Errorf "cloneset %q exceeded its progress deadline" args)).
  { intros cs' d w0.
    unfold isCloneSetReady, getCloneSetCondition, reason_is, bind, ret.
    destruct (_ <=? _)%Z; cbv beta iota.
    - repeat match goal with |- context [if ?b then _ else _] => destruct b end;
        eexists; (split; [reflexivity|]); (split; [reflexivity|]); intros args; discriminate.
    - eexists. split; [reflexivity|]. split; [reflexivity|]. intros args; discriminate. }
  split; [reflexivity|]. split; [apply H|].
  intros cd. unfold IsCanaryReady, bind.
  destruct (Get_frame (CanaryNamespace cd) (TargetRefName cd) w) as (r & w1 & -> & _).
  destruct r as [canary|err].
  - destruct (H canary (ProgressDeadlineSeconds cd) w1) as ([retriable e] & -> & Hr & _).
    cbn [fst snd] in *. destruct e; eexists _, _; (split; [reflexivity|]); [exact Hr | reflexivity].
  - eexists _, _. split; reflexivity.
Qed.

Lemma isCloneSetReady_passes cs deadline w p :
  (Generation (Meta cs) <= ObservedGeneration (Status cs))%Z ->
  Replicas (Spec cs) = Some p ->
  (pointee p <= UpdatedReplicas (Status cs))%Z ->
  (StatusReplicas (Status cs) <= UpdatedReplicas (Status cs))%Z ->
  (UpdatedReplicas (Status cs) <= AvailableReplicas (Status cs))%Z ->
  isCloneSetReady cs deadline w = (Returned (true, None), w).
Proof.
  intros Hg Hp H1 H2 H3.
  unfold isCloneSetReady, getCloneSetCondition, reason_is, bind, ret. rewrite Hp.
  apply Z.leb_le in Hg. rewrite Hg. cbv beta iota.
  assert ((UpdatedReplicas (Status cs) <? pointee p)%Z = false) as -> by now apply Z.ltb_ge.
  assert ((UpdatedReplicas (Status cs) <? StatusReplicas (Status cs))%Z = false) as ->
    by now apply Z.ltb_ge.
  assert ((AvailableReplicas (Status cs) <? UpdatedReplicas (Status cs))%Z = false) as ->
    by now apply Z.ltb_ge.
  reflexivity.
Qed.

(** The pointer that [int32p] returns is no pointer of the object read before
    it: [IsPrimaryReady] never returns its halt error. *)
Lemma IsPrimaryReady_never_halts cd w args :
  fst (IsPrimaryReady cd w)
  <> Returned (Some (Errorf "halt %s.%s advancement: primary cloneset is scaled to zero" args)).
Proof.
  unfold IsPrimaryReady, bind.
  destruct (hd None (faults w)) as [f|] eqn:Hf.
  { rewrite (Get_fault _ _ _ f Hf). discriminate. }
  destruct (lookup_object (CanaryNamespace cd) (TargetRefName cd +:+ "-primary") (objects w))
    as [p|] eqn:Hp.
  2: { rewrite (Get_missing _ _ _ Hf Hp). discriminate. }
  rewrite (Get_found _ _ _ p Hf Hp). cbv beta iota.
  match goal with |- context [isCloneSetReady ?o ?d ?w'] =>
    pose proof (isCloneSetReady_state o d w') as Hs;
    destruct (isCloneSetReady o d w') as [[[retriable [err|]]|] w2]
  end; cbn [snd] in Hs; subst w2; cbn [fst snd]; try discriminate.
  unfold int32p, bind, alloc, ret. cbv beta iota.
  rewrite fetched_Replicas. unfold copied.
  destruct (Replicas (Spec p)) as [q|]; cbn [option_map ptr_eq addr next allocated logged fst];
    [|discriminate].
  assert (Nat.eqb (next w) (S (next w)) = false) as -> by (apply Nat.eqb_neq; lia).
  discriminate.
Qed.

(** C1.  The primary is read, passes the readiness classifier and declares
    zero replicas: [IsPrimaryReady] returns nil. *)
Theorem IsPrimaryReady_nil_on_zero_replicas cd w primary p :
  hd None (faults w) = None ->
  primary_of cd w = Some primary ->
  Replicas (Spec primary) = Some p ->
  pointee p = 0%Z ->
  (Generation (Meta primary) <= ObservedGeneration (Status primary))%Z ->
  (0 <= UpdatedReplicas (Status primary))%Z ->
  (StatusReplicas (Status primary) <= UpdatedReplicas (Status primary))%Z ->
  (UpdatedReplicas (Status primary) <= AvailableReplicas (Status primary))%Z ->
  fst (IsPrimaryReady cd w) = Returned None.
Proof.
  intros Hf Hp Hrep Hzero Hg H1 H2 H3.
  unfold IsPrimaryReady, bind.
  rewrite (Get_found _ _ _ primary Hf Hp). cbv beta iota.
  rewrite (isCloneSetReady_passes _ _ _ (mkInt32Ptr (next w) (pointee p))).
  - cbv beta iota. cbn [snd]. unfold int32p, bind, alloc, ret. cbv beta iota.
    rewrite fetched_Replicas, Hrep. unfold copied. rewrite Hrep.
    cbn [option_map ptr_eq addr next allocated logged fst].
    assert (Nat.eqb (next w) (S (next w)) = false) as -> by (apply Nat.eqb_neq; lia).
    reflexivity.
  - now rewrite fetched_Meta, fetched_Status.
  - now rewrite fetched_Replicas, Hrep.
  - rewrite fetched_Status. cbn [pointee]. now rewrite Hzero.
  - now rewrite fetched_Status.
  - now rewrite fetched_Status.
Qed.

Lemma IsPrimaryReady_nil_on_zero_replicas_witness :
  let cd := Demo.canary "" false in
  let w := Demo.cluster [Demo.target; Demo.primary] [] in
  primary_of cd w = Some Demo.primary /\
  option_map pointee (Replicas (Spec Demo.primary)) = Some 0%Z /\
  fst (IsPrimaryReady cd w) = Returned None.
Proof.
  intros cd w. split; [reflexivity|]. split; [reflexivity|].
  apply (IsPrimaryReady_nil_on_zero_replicas cd w Demo.primary (mkInt32Ptr 0 0));
    try reflexivity; cbn; lia.
Defined.

(** ** The operations on the demo cluster *)

Lemma createPrimaryCloneSet_existing_primary_witness :
  let cd := Demo.canary "" false in
  let w := Demo.cluster [Demo.target; Demo.primary] [] in
  primary_of cd w = Some Demo.primary /\
  primary_of cd (snd (Initialize Demo.makeAnnotations Demo.includeLabelsByPrefix
                        "flagger.app/v1beta1" "Canary" Demo.controller cd w))
  = Some Demo.primary.
Proof.
  intros cd w. split; [reflexivity|].
  exact (proj1 (proj2 (proj2
    (createPrimaryCloneSet_existing_primary Demo.makeAnnotations Demo.includeLabelsByPrefix
       "flagger.app/v1beta1" "Canary" Demo.controller cd [] w Demo.primary eq_refl)))).
Defined.

Lemma Promote_writes_primary_witness :
  let cd := Demo.canary "Promoting" false in
  let w := Demo.cluster [Demo.scaled_target; Demo.primary] [] in
  MinReadySeconds (Spec Demo.scaled_target) = 5%Z /\
  MinReadySeconds (Spec Demo.primary) = 0%Z /\
  go_lookup scaleToZeroKey (node_selector Demo.scaled_target) = Some "true" /\
  exists p',
    fst (Promote Demo.makeAnnotations Demo.controller cd w) = Returned None /\
    primary_of cd (snd (Promote Demo.makeAnnotations Demo.controller cd w)) = Some p' /\
    hd_error (actions (snd (Promote Demo.makeAnnotations Demo.controller cd w)))
      = Some (UpdateAction (CanaryNamespace cd) p') /\
    MinReadySeconds (Spec p') = 5%Z /\
    go_lookup "app" (Labels (TemplateMeta (Template (Spec p')))) = Some ("demo" +:+ "-primary") /\
    go_lookup scaleToZeroKey (node_selector p') = None.
Proof.
  intros cd w. split; [reflexivity|]. split; [reflexivity|]. split; [reflexivity|].
  apply (Promote_writes_primary Demo.makeAnnotations Demo.controller cd w
           Demo.scaled_target Demo.primary "app" "demo" []
           (Some (<[ "flagger-id" := "1" ]> ∅))); try reflexivity.
  constructor.
Defined.

(** * Further properties *)

(** ** The factory *)

(** X1.  The controller of a kind: the CloneSet controller for [CloneSet] and
    for no other kind, built with the tracker, the labels and the label
    prefixes the factory was made with; for every kind that is none of
    [DaemonSet], [Service] and [CloneSet], the controller of [Deployment]. *)
Theorem Factory_Controller_dispatch tracker lbls prefixes kind :
  let factory := NewFactory tracker lbls prefixes in
  (kind = "CloneSet" ->
   Factory_Controller factory kind
   = CloneSetCtrl {| configTracker := tracker; labels := lbls;
                     includeLabelPrefix := prefixes |}) /\
  (forall c, Factory_Controller factory kind = CloneSetCtrl c -> kind = "CloneSet") /\
  (kind <> "DaemonSet" -> kind <> "Service" -> kind <> "CloneSet" ->
   Factory_Controller factory kind = Factory_Controller factory "Deployment" /\
   Factory_Controller factory kind = DeploymentController lbls tracker prefixes).
Proof.
  intros factory. unfold Factory_Controller. cbn [NewFactory factoryLabels factoryConfigTracker
    factoryIncludeLabelPrefix factory].
  split; [|split].
  - intros ->. reflexivity.
  - intros c.
    destruct (String.eqb kind "DaemonSet"); [discriminate|].
    destruct (String.eqb kind "Deployment"); [discriminate|].
    destruct (String.eqb kind "Service"); [discriminate|].
    destruct (String.eqb_spec kind "CloneSet"); [trivial | discriminate].
  - intros H1 H2 H3. apply String.eqb_neq in H1, H2, H3. rewrite H1, H2, H3.
    cbn. split; [|now destruct (String.eqb kind "Deployment")].
    now destruct (String.eqb kind "Deployment").
Qed.

Lemma Factory_Controller_dispatch_witness :
  Factory_Controller (NewFactory Demo.tracker ["app"] []) "UnknownKind"
  = Factory_Controller (NewFactory Demo.tracker ["app"] []) "Deployment".
Proof.
  apply (Factory_Controller_dispatch Demo.tracker ["app"] [] "UnknownKind"); discriminate.
Defined.

(** ** The readiness classifier *)

(** X2.  [isCloneSetReady] returns a nil error exactly when the generation is
    observed, the updated replicas are no fewer than the declared ones (not
    asked when [Spec.Replicas] is nil), no replica is left to terminate and
    the available replicas are no fewer than the updated ones. *)
Theorem isCloneSetReady_nil_iff cs deadline w :
  fst (isCloneSetReady cs deadline w) = Returned (true, None) <-> rollout_finished cs.
Proof.
  unfold rollout_finished, isCloneSetReady, getCloneSetCondition, reason_is, bind, ret.
  destruct (Z.leb_spec (Generation (Meta cs)) (ObservedGeneration (Status cs))) as [Hg|Hg];
    cbv beta iota.
  2: { cbn. split; [discriminate | lia]. }
  destruct (Replicas (Spec cs)) as [p|].
  - destruct (Z.ltb_spec (UpdatedReplicas (Status cs)) (pointee p)) as [H1|H1]; cbn [fst snd].
    { cbn. split; [discriminate|]. intros (_ & H & _). specialize (H p eq_refl). lia. }
    destruct (Z.ltb_spec (UpdatedReplicas (Status cs)) (StatusReplicas (Status cs))) as [H2|H2].
    { cbn. split; [discriminate | lia]. }
    destruct (Z.ltb_spec (AvailableReplicas (Status cs)) (UpdatedReplicas (Status cs))) as [H3|H3].
    { cbn. split; [discriminate | lia]. }
    cbn. split; [|reflexivity]. intros _. split; [exact Hg|]. split; [|lia].
    now intros q [= <-].
  - destruct (Z.ltb_spec (UpdatedReplicas (Status cs)) (StatusReplicas (Status cs))) as [H2|H2].
    { cbn. split; [discriminate | lia]. }
    destruct (Z.ltb_spec (AvailableReplicas (Status cs)) (UpdatedReplicas (Status cs))) as [H3|H3].
    { cbn. split; [discriminate | lia]. }
    cbn. split; [|reflexivity]. intros _. split; [exact Hg|]. split; [|lia].
    discriminate.
Qed.

Lemma isCloneSetReady_returns cs deadline w :
  exists e, isCloneSetReady cs deadline w = (Returned (true, e), w).
Proof.
  unfold isCloneSetReady, getCloneSetCondition, reason_is, bind, ret.
  destruct (_ <=? _)%Z; cbv beta iota; [|eexists; reflexivity].
  repeat match goal with |- context [if ?b then _ else _] => destruct b end;
    eexists; reflexivity.
Qed.

Lemma fetched_RevisionHistoryLimit o a :
  RevisionHistoryLimit (Spec (fetched o a)) = RevisionHistoryLimit (Spec o).
Proof. unfold fetched. destruct (Replicas (Spec o)); reflexivity. Qed.

Lemma fetched_pointee o a :
  option_map pointee (Replicas (Spec (fetched o a))) = option_map pointee (Replicas (Spec o)).
Proof. rewrite fetched_Replicas. now destruct (Replicas (Spec o)). Qed.

Lemma rollout_finished_fetched o a : rollout_finished (fetched o a) <-> rollout_finished o.
Proof.
  unfold rollout_finished. rewrite fetched_Meta, fetched_Status, fetched_Replicas.
  destruct (Replicas (Spec o)) as [q|]; cbn [option_map]; split;
    intros (H1 & H2 & H3 & H4); (split; [exact H1|]); (split; [|now split]);
    intros p [= <-]; exact (H2 _ eq_refl).
Qed.

Lemma isCloneSetReady_decides cs deadline w :
  (rollout_finished cs /\ isCloneSetReady cs deadline w = (Returned (true, None), w)) \/
  (~ rollout_finished cs /\
   exists e, isCloneSetReady cs deadline w = (Returned (true, Some e), w)).
Proof.
  destruct (isCloneSetReady_returns cs deadline w) as [[e|] He].
  - right. split; [|now exists e]. intros (Hg & Hd & Ht & Ha).
    revert He. unfold isCloneSetReady, getCloneSetCondition, reason_is, bind, ret.
    apply Z.leb_le in Hg. rewrite Hg. cbv beta iota.
    destruct (Replicas (Spec cs)) as [p|].
    + specialize (Hd p eq_refl).
      assert ((UpdatedReplicas (Status cs) <? pointee p)%Z = false) as -> by now apply Z.ltb_ge.
      assert ((UpdatedReplicas (Status cs) <? StatusReplicas (Status cs))%Z = false) as ->
        by now apply Z.ltb_ge.
      assert ((AvailableReplicas (Status cs) <? UpdatedReplicas (Status cs))%Z = false) as ->
        by now apply Z.ltb_ge.
      discriminate.
    + assert ((UpdatedReplicas (Status cs) <? StatusReplicas (Status cs))%Z = false) as ->
        by now apply Z.ltb_ge.
      assert ((AvailableReplicas (Status cs) <? UpdatedReplicas (Status cs))%Z = false) as ->
        by now apply Z.ltb_ge.
      discriminate.
  - left. split; [|exact He].
    revert He. unfold rollout_finished, isCloneSetReady, getCloneSetCondition, reason_is, bind, ret.
    destruct (Z.leb_spec (Generation (Meta cs)) (ObservedGeneration (Status cs))) as [Hg|Hg];
      cbv beta iota; [|discriminate].
    destruct (Replicas (Spec cs)) as [p|].
    + destruct (Z.ltb_spec (UpdatedReplicas (Status cs)) (pointee p)); [discriminate|].
      destruct (Z.ltb_spec (UpdatedReplicas (Status cs)) (StatusReplicas (Status cs)));
        [discriminate|].
      destruct (Z.ltb_spec (AvailableReplicas (Status cs)) (UpdatedReplicas (Status cs)));
        [discriminate|].
      intros _. split; [exact Hg|]. split; [now intros q [= <-]|]. now split.
    + destruct (Z.ltb_spec (UpdatedReplicas (Status cs)) (StatusReplicas (Status cs)));
        [discriminate|].
      destruct (Z.ltb_spec (AvailableReplicas (Status cs)) (UpdatedReplicas (Status cs)));
        [discriminate|].
      intros _. split; [exact Hg|]. split; [discriminate|]. now split.
Qed.

(** X3.  [IsCanaryReady] answers ready, [(true, nil)], exactly when the read
    of the target does not fail, the API holds the target and its rollout is
    observed and finished. *)
Theorem IsCanaryReady_nil_iff cd w :
  fst (IsCanaryReady cd w) = Returned (true, None) <->
  hd None (faults w) = None /\ exists t, target_of cd w = Some t /\ rollout_finished t.
Proof.
  unfold IsCanaryReady, bind, target_of.
  destruct (hd None (faults w)) as [f|] eqn:Hf.
  { rewrite (Get_fault _ _ _ f Hf). cbn. split; [discriminate | now intros [? _]]. }
  destruct (lookup_object (CanaryNamespace cd) (TargetRefName cd) (objects w)) as [t|] eqn:Ht.
  2: { rewrite (Get_missing _ _ _ Hf Ht). cbn. split; [discriminate|].
       now intros (_ & t & ? & _). }
  rewrite (Get_found _ _ _ t Hf Ht). cbv beta iota.
  match goal with |- context [isCloneSetReady ?o ?d ?w'] =>
    destruct (isCloneSetReady_decides o d w') as [[Hfin ->] | [Hnot [e ->]]]
  end; cbn [fst snd].
  - split; [|reflexivity]. intros _. split; [reflexivity|]. exists t. split; [reflexivity|].
    now apply rollout_finished_fetched in Hfin.
  - split; [discriminate|]. intros (_ & t' & [= <-] & Hr).
    contradiction Hnot. now apply rollout_finished_fetched.
Qed.

(** ** Operations that only read *)





(** ** Scaling, whatever fails *)

Lemma Update_fault ns o w f :
  hd None (faults w) = Some f ->
  Update ns o w
  = (Returned (Some (StatusError (fault_reason f))), logged (UpdateAction ns o) w).
Proof. intros Hf. unfold Update, bind, request. rewrite Hf. reflexivity. Qed.

(** The three ways of a scale operation: the read fails; the update fails;
    the update is applied. *)
Lemma scale_cases cd w (m : CloneSet -> CloneSet -> gomap) fmt1 fmt2 :
  let op : M (option error) :=
    r <- Get (CanaryNamespace cd) (TargetRefName cd) ;;
    match r with
    | inr err => ret (Some (Wrapf fmt1 [AStr (TargetRefName cd); AStr (CanaryNamespace cd)] err))
    | inl cloneset =>
        clonesetCopy <- DeepCopy cloneset ;;
        let clonesetCopy := set_NodeSelector (m cloneset clonesetCopy) clonesetCopy in
        err <- Update (Namespace (Meta cloneset)) clonesetCopy ;;
        match err with
        | Some err =>
            ret (Some (Wrapf fmt2 [AStr (Name (Meta clonesetCopy));
                                   AStr (Namespace (Meta clonesetCopy))] err))
        | None => ret None
        end
    end in
  (exists r,
     (target_of cd w = None \/ hd None (faults w) <> None) /\
     op w = (Returned (Some (Wrapf fmt1 [AStr (TargetRefName cd); AStr (CanaryNamespace cd)]
                               (StatusError r))),
             logged (GetAction (CanaryNamespace cd) (TargetRefName cd)) w)) \/
  (exists t a b,
     target_of cd w = Some t /\ hd None (faults w) = None /\
     let t1 := set_NodeSelector (m (fetched t a) (fetched (fetched t a) b))
                 (fetched (fetched t a) b) in
     actions (snd (op w))
       = UpdateAction (CanaryNamespace cd) t1
           :: GetAction (CanaryNamespace cd) (TargetRefName cd) :: actions w /\
     ((exists r,
         hd None (tl (faults w)) <> None /\
         fst (op w) = Returned (Some (Wrapf fmt2 [AStr (TargetRefName cd);
                                                   AStr (CanaryNamespace cd)]
                                        (StatusError r))) /\
         objects (snd (op w)) = objects w) \/
      (hd None (tl (faults w)) = None /\
       fst (op w) = Returned None /\
       objects (snd (op w)) = replace_object t1 (objects w)))).
Proof.
  intros op. unfold target_of.
  destruct (hd None (faults w)) as [f|] eqn:Hf.
  { left. exists (fault_reason f). split; [now right|].
    unfold op, bind. now rewrite (Get_fault _ _ _ f Hf). }
  destruct (lookup_object (CanaryNamespace cd) (TargetRefName cd) (objects w)) as [t|] eqn:Ht.
  2: { left. exists ReasonNotFound. split; [now left|].
       unfold op, bind. now rewrite (Get_missing _ _ _ Hf Ht). }
  right.
  pose proof (lookup_object_key _ _ _ _ Ht) as [Hns Hname].
  set (w1 := copied t (logged (GetAction (CanaryNamespace cd) (TargetRefName cd)) w)).
  set (t' := fetched t (next w)).
  set (t1 := set_NodeSelector (m t' (fetched t' (next w1))) (fetched t' (next w1))).
  exists t, (next w), (next w1). split; [reflexivity|]. split; [reflexivity|].
  cbv zeta. fold t' t1.
  assert (Hmeta : Meta t1 = Meta t)
    by (unfold t1, t'; cbn [set_NodeSelector Meta]; now rewrite !fetched_Meta).
  assert (Hns' : Namespace (Meta t') = CanaryNamespace cd)
    by (unfold t'; now rewrite fetched_Meta).
  assert (Hfl : faults (copied t' w1) = tl (faults w)).
  { unfold w1. now rewrite !copied_faults. }
  assert (Hob : objects (copied t' w1) = objects w).
  { unfold w1. now rewrite !copied_objects. }
  assert (Hac : actions (copied t' w1)
                = GetAction (CanaryNamespace cd) (TargetRefName cd) :: actions w).
  { unfold w1. now rewrite !copied_actions. }
  assert (Hstart : op w =
    bind (Update (CanaryNamespace cd) t1)
      (fun err => match err with
                  | Some err => ret (Some (Wrapf fmt2 [AStr (Name (Meta t1));
                                                       AStr (Namespace (Meta t1))] err))
                  | None => ret None
                  end) (copied t' w1)).
  { unfold op, bind. rewrite (Get_found _ _ _ t Hf Ht). cbv beta iota.
    fold w1 t'. rewrite DeepCopy_eq. cbv beta iota zeta. fold t1. now rewrite Hns'. }
  rewrite Hstart. unfold bind.
  destruct (hd None (tl (faults w))) as [f|] eqn:Hf2.
  - rewrite (Update_fault _ _ _ f) by now rewrite Hfl.
    cbv beta iota. unfold ret. cbn [fst snd actions objects logged]. rewrite Hac, Hob.
    split; [reflexivity|]. left. exists (fault_reason f).
    split; [discriminate|]. rewrite Hmeta, Hns, Hname. now split.
  - rewrite (Update_ok _ t1 _ t).
    + cbv beta iota. unfold ret. cbn [fst snd actions objects logged with_objects].
      rewrite Hac, Hob. split; [reflexivity|]. right. repeat split.
    + now rewrite Hfl.
    + now rewrite Hmeta.
    + now rewrite Hmeta, Hname, Hob.
Qed.

Lemma same_but_node_selector_written t a b sel :
  same_but_node_selector t (set_NodeSelector sel (fetched (fetched t a) b)).
Proof.
  unfold same_but_node_selector.
  cbn [set_NodeSelector Meta Status Spec Replicas Selector UpdateStrategy MinReadySeconds
       RevisionHistoryLimit Template TemplateMeta TemplateSpec Containers].
  rewrite !fetched_Meta, !fetched_Status, !fetched_pointee, !fetched_Selector,
    !fetched_UpdateStrategy, !fetched_MinReadySeconds, !fetched_RevisionHistoryLimit,
    !fetched_Template.
  repeat split.
Qed.

Lemma scaled_target_of cd w w' t t1 :
  target_of cd w = Some t ->
  Meta t1 = Meta t ->
  objects w' = replace_object t1 (objects w) ->
  target_of cd w' = Some t1 /\
  forall ns n, same_object ns n t = false ->
    lookup_object ns n (objects w') = lookup_object ns n (objects w).
Proof.
  intros Ht Hmeta Ho. pose proof (lookup_object_key _ _ _ _ Ht) as [Hns Hname].
  unfold target_of in *. rewrite Ho. split.
  - rewrite <- Hns at 1. rewrite <- Hname, <- Hmeta.
    apply lookup_replace_same with (x := t). now rewrite Hmeta, Hns, Hname.
  - intros ns n Hne. apply lookup_replace_other. unfold same_object in *. now rewrite Hmeta.
Qed.

(** X5.  [ScaleToZero] either returns nil, and then the API holds the target
    with the marker added to the node-selector entries it had and nothing else
    of it changed, the other objects being as they were; or it returns an
    error, and then the objects are as they were.  It never panics. *)
Theorem ScaleToZero_marks_or_fails cd w :
  (exists t t1,
     target_of cd w = Some t /\
     fst (ScaleToZero cd w) = Returned None /\
     target_of cd (snd (ScaleToZero cd w)) = Some t1 /\
     node_selector t1 = Some (<[ scaleToZeroKey := "true" ]> (go_entries (node_selector t))) /\
     same_but_node_selector t t1 /\
     forall ns n, same_object ns n t = false ->
       lookup_object ns n (objects (snd (ScaleToZero cd w))) = lookup_object ns n (objects w)) \/
  (exists e,
     fst (ScaleToZero cd w) = Returned (Some e) /\
     objects (snd (ScaleToZero cd w)) = objects w).
Proof.
  destruct (scale_cases cd w
    (fun cloneset _ =>
       Some (range_assign cloneSetScaleDownNodeSelector
               (range_assign (go_entries (node_selector cloneset)) ∅)))
    "cloneset %s.%s get query error: %w" "updating cloneset %s.%s failed: %w")
    as [(r & _ & H) | (t & a & b & Ht & _ & _ & [(r & _ & Hr & Ho) | (_ & Hr & Ho)])].
  - right. eexists.
    split; [exact (f_equal fst H) | exact (f_equal (fun x => objects (snd x)) H)].
  - right. eexists. split; [exact Hr | exact Ho].
  - left.
    match type of Ho with _ = replace_object ?o _ => set (t1 := o) in * end.
    exists t, t1. split; [exact Ht|]. split; [exact Hr|].
    assert (Hmeta : Meta t1 = Meta t)
      by (unfold t1; cbn [set_NodeSelector Meta]; now rewrite !fetched_Meta).
    destruct (scaled_target_of cd w (snd (ScaleToZero cd w)) t t1 Ht Hmeta Ho) as [H1 H2].
    split; [exact H1|]. split.
    { unfold t1. cbn [node_selector set_NodeSelector Spec Template TemplateSpec NodeSelector].
      now rewrite range_assign_marker, range_assign_copy, fetched_node_selector. }
    split; [apply same_but_node_selector_written | exact H2].
Qed.

(** X6.  [ScaleFromZero] either returns nil, and then the API holds the
    target with the marker key deleted from its node selector and nothing else
    of it changed: a nil node selector stays nil, and a node selector without
    the marker is written back as it was; or it returns an error, and then the
    objects are as they were.  It never panics. *)
Theorem ScaleFromZero_unmarks_or_fails cd w :
  (exists t t1,
     target_of cd w = Some t /\
     fst (ScaleFromZero cd w) = Returned None /\
     target_of cd (snd (ScaleFromZero cd w)) = Some t1 /\
     node_selector t1 = go_delete scaleToZeroKey (node_selector t) /\
     go_lookup scaleToZeroKey (node_selector t1) = None /\
     (node_selector t = None -> node_selector t1 = None) /\
     (go_lookup scaleToZeroKey (node_selector t) = None -> node_selector t1 = node_selector t) /\
     same_but_node_selector t t1 /\
     forall ns n, same_object ns n t = false ->
       lookup_object ns n (objects (snd (ScaleFromZero cd w))) = lookup_object ns n (objects w)) \/
  (exists e,
     fst (ScaleFromZero cd w) = Returned (Some e) /\
     objects (snd (ScaleFromZero cd w)) = objects w).
Proof.
  destruct (scale_cases cd w
    (fun _ clonesetCopy =>
       range_delete cloneSetScaleDownNodeSelector (node_selector clonesetCopy))
    "cloneset %s.%s query error: %w" "scaling up cloneset %s.%s failed: %w")
    as [(r & _ & H) | (t & a & b & Ht & _ & _ & [(r & _ & Hr & Ho) | (_ & Hr & Ho)])].
  - right. eexists.
    split; [exact (f_equal fst H) | exact (f_equal (fun x => objects (snd x)) H)].
  - right. eexists. split; [exact Hr | exact Ho].
  - left.
    match type of Ho with _ = replace_object ?o _ => set (t1 := o) in * end.
    exists t, t1. split; [exact Ht|]. split; [exact Hr|].
    assert (Hmeta : Meta t1 = Meta t)
      by (unfold t1; cbn [set_NodeSelector Meta]; now rewrite !fetched_Meta).
    destruct (scaled_target_of cd w (snd (ScaleFromZero cd w)) t t1 Ht Hmeta Ho) as [H1 H2].
    assert (Hsel : node_selector t1 = go_delete scaleToZeroKey (node_selector t)).
    { unfold t1. cbn [node_selector set_NodeSelector Spec Template TemplateSpec NodeSelector].
      rewrite range_delete_marker. fold (node_selector (fetched (fetched t a) b)).
      now rewrite !fetched_node_selector. }
    split; [exact H1|]. split; [exact Hsel|]. rewrite Hsel.
    split. { destruct (node_selector t); cbn; [apply lookup_delete_eq | reflexivity]. }
    split. { now intros ->. }
    split. { destruct (node_selector t) as [g|]; cbn; [|reflexivity].
             intros Hk. now rewrite delete_id. }
    split; [apply same_but_node_selector_written | exact H2].
Qed.

(** ** Outcomes and states *)






(** ** Promotion, whatever fails *)

Section PromotionFrames.

Variable makeAnnotations : gomap -> gomap + error.
Variable c : CloneSetController.

Local Abbreviation Promote := (Promote makeAnnotations c).



End PromotionFrames.

(** ** Creation and initialization, whatever fails *)

Lemma ScaleToZero_nil_marker cd w :
  fst (ScaleToZero cd w) = Returned None ->
  exists t1,
    target_of cd (snd (ScaleToZero cd w)) = Some t1 /\
    go_lookup scaleToZeroKey (node_selector t1) = Some "true".
Proof.
  intros Hnil.
  destruct (scale_cases cd w
    (fun cloneset _ =>
       Some (range_assign cloneSetScaleDownNodeSelector
               (range_assign (go_entries (node_selector cloneset)) ∅)))
    "cloneset %s.%s get query error: %w" "updating cloneset %s.%s failed: %w")
    as [(r & _ & H) | (t & a & b & Ht & _ & _ & [(r & _ & Hr & Ho) | (_ & Hr & Ho)])].
  - apply (f_equal fst) in H. cbn [fst] in H.
    change (fst (ScaleToZero cd w) = Returned (Some (Wrapf "cloneset %s.%s get query error: %w"
              [AStr (TargetRefName cd); AStr (CanaryNamespace cd)] (StatusError r)))) in H.
    congruence.
  - change (fst (ScaleToZero cd w) = Returned (Some (Wrapf "updating cloneset %s.%s failed: %w"
              [AStr (TargetRefName cd); AStr (CanaryNamespace cd)] (StatusError r)))) in Hr.
    congruence.
  - match type of Ho with _ = replace_object ?o _ => set (t1 := o) in * end.
    assert (Hmeta : Meta t1 = Meta t)
      by (unfold t1; cbn [set_NodeSelector Meta]; now rewrite !fetched_Meta).
    destruct (scaled_target_of cd w (snd (ScaleToZero cd w)) t t1 Ht Hmeta Ho) as [H1 _].
    exists t1. split; [exact H1|].
    unfold t1. cbn [node_selector set_NodeSelector Spec Template TemplateSpec NodeSelector go_lookup].
    rewrite range_assign_marker. apply lookup_insert_eq.
Qed.

Section CreationFrames.

Variable makeAnnotations : gomap -> gomap + error.
Variable includeLabelsByPrefix : gomap -> list string -> gomap.
Variable canaryAPIVersion : string.
Variable CanaryKind : string.
Variable c : CloneSetController.

Local Abbreviation createPrimaryCloneSet :=
  (createPrimaryCloneSet makeAnnotations includeLabelsByPrefix canaryAPIVersion CanaryKind c).
Local Abbreviation Initialize :=
  (Initialize makeAnnotations includeLabelsByPrefix canaryAPIVersion CanaryKind c).


(** X10.  In the initial phase, when [Initialize] returns nil the API holds
    the target with the scale-to-zero marker in its node selector, whatever
    the state it started from. *)
Theorem Initialize_nil_has_scaled_the_target cd w :
  initial_phase cd = true ->
  fst (Initialize cd w) = Returned None ->
  exists t1,
    target_of cd (snd (Initialize cd w)) = Some t1 /\
    go_lookup scaleToZeroKey (node_selector t1) = Some "true".
Proof.
  intros Hphase. unfold Initialize, bind. rewrite Hphase.
  destruct (createPrimaryCloneSet cd (includeLabelPrefix c) w) as [[[err|]|] w1];
    cbn [fst snd]; try discriminate.
  match goal with |- context [(if ?b then _ else _) w1] =>
    destruct ((if b then IsPrimaryReady cd else ret None) w1) as [[[err|]|] w2]
  end; cbn [fst snd]; try discriminate.
  pose proof (ScaleToZero_nil_marker cd w2) as H.
  destruct (ScaleToZero cd w2) as [[[err|]|] w3]; cbn [fst snd] in *; try discriminate.
  intros _. now apply H.
Qed.

End CreationFrames.

(** ** What is created and what is promoted *)

Lemma lookup_object_app_old ns n l p o :
  lookup_object ns n l = Some o -> lookup_object ns n (l ++ [p]) = Some o.
Proof.
  unfold lookup_object. induction l as [|x l IH]; cbn [app find]; [discriminate|].
  destruct (same_object ns n x); [trivial | exact IH].
Qed.

Lemma lookup_object_app_new ns n l p :
  lookup_object ns n l = None ->
  lookup_object ns n (l ++ [p]) = if same_object ns n p then Some p else None.
Proof.
  unfold lookup_object. induction l as [|x l IH]; cbn [app find]; [reflexivity|].
  destruct (same_object ns n x); [discriminate | exact IH].
Qed.

Lemma Create_ok ns o w :
  hd None (faults w) = None ->
  Namespace (Meta o) = ns ->
  lookup_object ns (Name (Meta o)) (objects w) = None ->
  Create ns o w
  = (Returned None, with_objects (objects w ++ [o]) (logged (CreateAction ns o) w)).
Proof.
  intros Hf Hns Hl. unfold Create, bind, request, get_objects, set_objects. rewrite Hf.
  cbv beta iota. rewrite Hns, String.eqb_refl. cbn [negb]. cbv beta iota.
  change (objects (logged (CreateAction ns o) w)) with (objects w).
  rewrite Hl. reflexivity.
Qed.

Section Written.

Variable makeAnnotations : gomap -> gomap + error.
Variable includeLabelsByPrefix : gomap -> list string -> gomap.
Variable canaryAPIVersion : string.
Variable CanaryKind : string.
Variable c : CloneSetController.

Local Abbreviation createPrimaryCloneSet :=
  (createPrimaryCloneSet makeAnnotations includeLabelsByPrefix canaryAPIVersion CanaryKind c).
Local Abbreviation Promote := (Promote makeAnnotations c).

(** X11.  With no request failing, a target of an accepted strategy whose
    selector label resolves, no primary held by the API, and the tracker and
    the annotations succeeding, [createPrimaryCloneSet] returns nil and adds
    the primary: named after the target in the canary's namespace, owned by
    the canary as its controller, selecting the primary label value alone,
    with no replica count declared, the target's annotations, min-ready
    seconds, revision history limit and update strategy, and as pod spec what
    the tracker makes of the target's, its node selector as the tracker left
    it.  The target is as it was. *)
Theorem createPrimaryCloneSet_creates cd prefixes w t label labelValue refs annotations :
  quiet w ->
  target_of cd w = Some t ->
  primary_of cd w = None ->
  Type_ (UpdateStrategy (Spec t)) = "" \/
    Type_ (UpdateStrategy (Spec t)) = RecreateCloneSetUpdateStrategyType ->
  getSelectorLabel c t = Returned (label, labelValue, None) ->
  GetTargetConfigs (configTracker c) cd = inl refs ->
  CreatePrimaryConfigs (configTracker c) cd refs (includeLabelPrefix c) = None ->
  makeAnnotations (Annotations (TemplateMeta (Template (Spec t)))) = inl annotations ->
  exists p,
    fst (createPrimaryCloneSet cd prefixes w) = Returned None /\
    objects (snd (createPrimaryCloneSet cd prefixes w)) = (objects w ++ [p])%list /\
    primary_of cd (snd (createPrimaryCloneSet cd prefixes w)) = Some p /\
    target_of cd (snd (createPrimaryCloneSet cd prefixes w)) = Some t /\
    Name (Meta p) = TargetRefName cd +:+ "-primary" /\
    Namespace (Meta p) = CanaryNamespace cd /\
    OwnerReferences (Meta p)
      = [ {| OwnerAPIVersion := canaryAPIVersion; OwnerKind := CanaryKind;
             OwnerName := CanaryName cd; OwnerController := true;
             OwnerBlockDeletion := true |} ] /\
    Annotations (Meta p) = Annotations (Meta t) /\
    Selector (Spec p)
      = Some {| MatchLabels := Some {[ label := labelValue +:+ "-primary" ]} |} /\
    Replicas (Spec p) = None /\
    MinReadySeconds (Spec p) = MinReadySeconds (Spec t) /\
    RevisionHistoryLimit (Spec p) = RevisionHistoryLimit (Spec t) /\
    UpdateStrategy (Spec p) = UpdateStrategy (Spec t) /\
    TemplateSpec (Template (Spec p))
      = ApplyPrimaryConfigs (configTracker c) (TemplateSpec (Template (Spec t))) refs /\
    Annotations (TemplateMeta (Template (Spec p))) = annotations.
Proof.
  intros Hq Ht Hp Hs Hsel Hrefs Hcreate Hann.
  unfold target_of in Ht. unfold primary_of in Hp.
  set (w1 := copied t (logged (GetAction (CanaryNamespace cd) (TargetRefName cd)) w)).
  assert (Q1 : quiet w1) by now apply quiet_after_get.
  assert (O1 : objects w1 = objects w) by (unfold w1; now rewrite copied_objects).
  set (w2 := logged (GetAction (CanaryNamespace cd) (TargetRefName cd +:+ "-primary")) w1).
  assert (Q2 : quiet w2) by now apply quiet_logged.
  unfold createPrimaryCloneSet, bind.
  rewrite (Get_found _ _ _ t (quiet_hd _ Hq) Ht). cbv beta iota zeta. fold w1.
  rewrite fetched_UpdateStrategy.
  replace (negb (String.eqb (Type_ (UpdateStrategy (Spec t))) "")
           && negb (String.eqb (Type_ (UpdateStrategy (Spec t)))
                      RecreateCloneSetUpdateStrategyType)) with false
    by (destruct Hs as [-> | ->]; reflexivity).
  unfold lift. rewrite getSelectorLabel_fetched, Hsel. cbv beta iota.
  rewrite (Get_missing _ _ _ (quiet_hd _ Q1)) by (rewrite O1; exact Hp).
  cbv beta iota. fold w2. cbn [IsNotFound].
  rewrite Hrefs, Hcreate, fetched_Template, Hann.
  match goal with |- context [Create ?ns ?o ?w'] => set (p := o) end.
  rewrite (Create_ok _ p w2);
    [| now apply quiet_hd | reflexivity
     | change (objects w2) with (objects w1); rewrite O1; exact Hp].
  cbv beta iota. exists p. unfold ret, primary_of, target_of.
  cbn [fst snd objects with_objects logged].
  change (objects w2) with (objects w1). rewrite O1.
  split; [reflexivity|]. split; [reflexivity|]. split.
  { rewrite (lookup_object_app_new _ _ _ p Hp).
    unfold same_object, p. cbn [Meta Name Namespace]. now rewrite !String.eqb_refl. }
  split. { now apply lookup_object_app_old. }
  unfold p. cbn. rewrite ?fetched_Meta, ?fetched_UpdateStrategy, ?fetched_MinReadySeconds,
    ?fetched_RevisionHistoryLimit, ?fetched_Template.
  repeat split.
Qed.

(** X12.  With no request failing, the selector label resolved and the
    tracker and the annotations succeeding, [Promote] returns nil and the
    primary it leaves has the metadata, the selector, the declared replica
    count and the status of the primary it found, the update strategy, revision
    history limit and min-ready seconds of the target, the annotations made
    for its pod template, and as pod spec what the tracker makes of the
    target's, the marker key deleted from its node selector.  Every other
    object is as it was. *)
Theorem Promote_keeps_the_primary cd w t p label labelValue refs annotations :
  quiet w ->
  target_of cd w = Some t ->
  primary_of cd w = Some p ->
  getSelectorLabel c t = Returned (label, labelValue, None) ->
  GetTargetConfigs (configTracker c) cd = inl refs ->
  CreatePrimaryConfigs (configTracker c) cd refs (includeLabelPrefix c) = None ->
  makeAnnotations (Annotations (TemplateMeta (Template (Spec t)))) = inl annotations ->
  let podSpec := ApplyPrimaryConfigs (configTracker c) (TemplateSpec (Template (Spec t))) refs in
  exists p',
    fst (Promote cd w) = Returned None /\
    primary_of cd (snd (Promote cd w)) = Some p' /\
    Meta p' = Meta p /\
    Status p' = Status p /\
    Selector (Spec p') = Selector (Spec p) /\
    option_map pointee (Replicas (Spec p')) = option_map pointee (Replicas (Spec p)) /\
    UpdateStrategy (Spec p') = UpdateStrategy (Spec t) /\
    RevisionHistoryLimit (Spec p') = RevisionHistoryLimit (Spec t) /\
    MinReadySeconds (Spec p') = MinReadySeconds (Spec t) /\
    Annotations (TemplateMeta (Template (Spec p'))) = annotations /\
    Containers (TemplateSpec (Template (Spec p'))) = Containers podSpec /\
    node_selector p' = go_delete scaleToZeroKey (NodeSelector podSpec) /\
    forall ns n, same_object ns n p = false ->
      lookup_object ns n (objects (snd (Promote cd w))) = lookup_object ns n (objects w).
Proof.
  intros Hq Ht Hp Hsel Hrefs Hcreate Hann podSpec.
  unfold target_of in Ht. unfold primary_of in Hp.
  pose proof (lookup_object_key _ _ _ _ Hp) as [Hns Hname].
  set (w1 := copied t (logged (GetAction (CanaryNamespace cd) (TargetRefName cd)) w)).
  assert (Q1 : quiet w1) by now apply quiet_after_get.
  assert (O1 : objects w1 = objects w) by (unfold w1; now rewrite copied_objects).
  set (w2 := copied p (logged (GetAction (CanaryNamespace cd) (TargetRefName cd +:+ "-primary")) w1)).
  assert (Q2 : quiet w2) by now apply quiet_after_get.
  assert (O2 : objects w2 = objects w) by (unfold w2; now rewrite copied_objects).
  set (p1 := fetched p (next w1)).
  set (w3 := copied p1 w2).
  assert (Q3 : quiet w3) by now apply quiet_copied.
  assert (O3 : objects w3 = objects w) by (unfold w3; now rewrite copied_objects).
  unfold Promote, bind.
  rewrite (Get_found _ _ _ t (quiet_hd _ Hq) Ht). cbv beta iota. fold w1.
  unfold lift. rewrite getSelectorLabel_fetched, Hsel. cbv beta iota.
  rewrite (Get_found _ _ _ p (quiet_hd _ Q1)) by (rewrite O1; exact Hp).
  cbv beta iota. fold w2 p1.
  rewrite Hrefs, Hcreate. rewrite DeepCopy_eq. cbv beta iota zeta. fold w3.
  rewrite fetched_Template, Hann. fold podSpec.
  match goal with |- context [Update ?ns ?o ?w'] => set (p' := o) end.
  assert (Hmeta : Meta p' = Meta p).
  { unfold p', p1. cbn [Meta]. now rewrite !fetched_Meta. }
  rewrite (Update_ok _ p' _ p).
  2: { now apply quiet_hd. }
  2: { now rewrite Hmeta. }
  2: { now rewrite Hmeta, Hname, O3. }
  cbv beta iota. exists p'. unfold ret, primary_of. cbn [fst snd with_objects logged objects].
  rewrite O3.
  split; [reflexivity|]. split.
  { rewrite <- Hns at 1. rewrite <- Hname, <- Hmeta.
    apply lookup_replace_same with (x := p). now rewrite Hmeta, Hns, Hname. }
  split; [exact Hmeta|].
  split. { unfold p', p1. cbn [Status]. now rewrite !fetched_Status. }
  split. { unfold p', p1. cbn [Spec Selector]. now rewrite !fetched_Selector. }
  split. { unfold p', p1. cbn [Spec Replicas]. now rewrite !fetched_pointee. }
  split. { unfold p'. cbn [Spec UpdateStrategy]. now rewrite fetched_UpdateStrategy. }
  split. { unfold p'. cbn [Spec RevisionHistoryLimit]. now rewrite fetched_RevisionHistoryLimit. }
  split. { unfold p'. cbn [Spec MinReadySeconds]. now rewrite fetched_MinReadySeconds. }
  split; [reflexivity|]. split; [reflexivity|]. split.
  { unfold p', node_selector, set_NodeSelector_pod.
    cbn [Spec Template TemplateSpec NodeSelector]. apply range_delete_marker. }
  intros ns n Hne. apply lookup_replace_other. unfold same_object in *. now rewrite Hmeta.
Qed.

End Written.

(** ** Selector resolution, in full *)

Lemma getSelectorLabel_from_result c cs rest :
  match getSelectorLabel_from c rest cs with
  | Returned (l, v, None) =>
      exists sel pre post,
        Selector (Spec cs) = Some sel /\
        rest = (pre ++ l :: post)%list /\
        (forall x, In x pre -> go_lookup x (MatchLabels sel) = None) /\
        go_lookup l (MatchLabels sel) = Some v
  | Returned (l, v, Some e) =>
      l = "" /\ v = "" /\
      (rest = [] \/
       exists sel, Selector (Spec cs) = Some sel /\
                   forall x, In x rest -> go_lookup x (MatchLabels sel) = None)
  | Panicked => Selector (Spec cs) = None /\ rest <> []
  end.
Proof.
  induction rest as [|l rest IH]; cbn [getSelectorLabel_from].
  - split; [reflexivity|]. split; [reflexivity | now left].
  - destruct (Selector (Spec cs)) as [sel|] eqn:Hsel; [|now split].
    destruct (go_lookup l (MatchLabels sel)) as [v|] eqn:Hl.
    + exists sel, [], rest. repeat split; [|exact Hl]. intros x [].
    + destruct (getSelectorLabel_from c rest cs) as [[[l' v'] [e|]]|].
      * destruct IH as (-> & -> & IH). split; [reflexivity|]. split; [reflexivity|].
        right. exists sel. split; [reflexivity|].
        intros x [<- | Hx]; [exact Hl|].
        destruct IH as [-> | (sel' & [= <-] & IH)]; [destruct Hx | now apply IH].
      * destruct IH as (sel' & pre & post & [= <-] & -> & Hpre & Hv).
        exists sel, (l :: pre), post. repeat split; [|exact Hv].
        intros x [<- | Hx]; [exact Hl | now apply Hpre].
      * destruct IH as [[=] _].
Qed.

(** X13.  What [getSelectorLabel] returns, in all its cases.  A label
    returned with a nil error is a key of the configured list that the
    match-labels contain, with the value they give it, and no key before it in
    the list is in the match-labels.  With an error, label and value are
    empty, and the list is empty or no key of it is in the match-labels.  It
    panics exactly on a CloneSet without selector when the list is not
    empty. *)
Theorem getSelectorLabel_result c cs :
  match getSelectorLabel c cs with
  | Returned (l, v, None) =>
      exists sel pre post,
        Selector (Spec cs) = Some sel /\
        labels c = (pre ++ l :: post)%list /\
        (forall x, In x pre -> go_lookup x (MatchLabels sel) = None) /\
        go_lookup l (MatchLabels sel) = Some v
  | Returned (l, v, Some e) =>
      l = "" /\ v = "" /\
      (labels c = [] \/
       exists sel, Selector (Spec cs) = Some sel /\
                   forall x, In x (labels c) -> go_lookup x (MatchLabels sel) = None)
  | Panicked => Selector (Spec cs) = None /\ labels c <> []
  end /\
  (Selector (Spec cs) = None -> labels c <> [] -> getSelectorLabel c cs = Panicked).
Proof.
  split; [apply getSelectorLabel_from_result|].
  intros Hsel Hne. unfold getSelectorLabel.
  destruct (labels c) as [|l rest]; [now contradiction Hne|].
  cbn [getSelectorLabel_from]. now rewrite Hsel.
Qed.

Section Reads.

Variable makeAnnotations : gomap -> gomap + error.
Variable includeLabelsByPrefix : gomap -> list string -> gomap.
Variable getPorts : Canary -> list Container -> gmap string Z.
Variable computeHash : PodTemplateSpec -> string.
Variable canaryAPIVersion : string.
Variable CanaryKind : string.
Variable c : CloneSetController.

Local Abbreviation createPrimaryCloneSet :=
  (createPrimaryCloneSet makeAnnotations includeLabelsByPrefix canaryAPIVersion CanaryKind c).
Local Abbreviation Initialize :=
  (Initialize makeAnnotations includeLabelsByPrefix canaryAPIVersion CanaryKind c).
Local Abbreviation Promote := (Promote makeAnnotations c).
Local Abbreviation GetMetadata := (GetMetadata getPorts c).
Local Abbreviation HasTargetChanged := (HasTargetChanged computeHash).

(** X14.  On a target without selector, read with a non-empty list of
    candidate labels, [GetMetadata] and [Promote] panic and so does, for an
    accepted update strategy, [createPrimaryCloneSet] and [Initialize] with
    it: each after its read of the target and no other request. *)
Theorem operations_panic_without_selector cd prefixes w t :
  hd None (faults w) = None ->
  target_of cd w = Some t ->
  Selector (Spec t) = None ->
  labels c <> [] ->
  let w' := copied t (logged (GetAction (CanaryNamespace cd) (TargetRefName cd)) w) in
  GetMetadata cd w = (Panicked, w') /\
  Promote cd w = (Panicked, w') /\
  (Type_ (UpdateStrategy (Spec t)) = "" \/
   Type_ (UpdateStrategy (Spec t)) = RecreateCloneSetUpdateStrategyType ->
   createPrimaryCloneSet cd prefixes w = (Panicked, w') /\
   Initialize cd w = (Panicked, w')).
Proof.
  intros Hf Ht Hsel Hne w'.
  assert (Hp : forall a, getSelectorLabel c (fetched t a) = Panicked).
  { intros a. rewrite getSelectorLabel_fetched. unfold getSelectorLabel.
    destruct (labels c) as [|l rest]; [now contradiction Hne|].
    cbn [getSelectorLabel_from]. now rewrite Hsel. }
  unfold target_of in Ht.
  split; [|split].
  - unfold GetMetadata, bind, lift. rewrite (Get_found _ _ _ t Hf Ht). cbv beta iota.
    now rewrite Hp.
  - unfold Promote, bind, lift. rewrite (Get_found _ _ _ t Hf Ht). cbv beta iota.
    now rewrite Hp.
  - intros Hs.
    assert (Hc : forall pfx, createPrimaryCloneSet cd pfx w = (Panicked, w')).
    { intros pfx. unfold createPrimaryCloneSet, bind, lift.
      rewrite (Get_found _ _ _ t Hf Ht). cbv beta iota zeta.
      rewrite fetched_UpdateStrategy.
      replace (negb (String.eqb (Type_ (UpdateStrategy (Spec t))) "")
               && negb (String.eqb (Type_ (UpdateStrategy (Spec t)))
                          RecreateCloneSetUpdateStrategyType)) with false
        by (destruct Hs as [-> | ->]; reflexivity).
      now rewrite Hp. }
    split; [apply Hc|]. unfold Initialize, bind. now rewrite Hc.
Qed.

(** X15.  [GetMetadata], the read of the target not failing: with the
    selector label resolved it returns the label, its value and no error, and
    the ports of the target's containers when port discovery is asked, a nil
    map when it is not; with the resolution failing it returns empty strings,
    a nil map of ports and the error wrapped, port discovery asked or not. *)
Theorem GetMetadata_result cd w t :
  hd None (faults w) = None ->
  target_of cd w = Some t ->
  (forall label labelValue,
     getSelectorLabel c t = Returned (label, labelValue, None) ->
     fst (GetMetadata cd w)
     = Returned (label, labelValue,
                 if PortDiscovery cd
                 then Some (getPorts cd (Containers (TemplateSpec (Template (Spec t)))))
                 else None,
                 None)) /\
  (forall label labelValue err,
     getSelectorLabel c t = Returned (label, labelValue, Some err) ->
     fst (GetMetadata cd w)
     = Returned ("", "", None, Some (Wrapf "getSelectorLabel failed: %w" [] err))).
Proof.
  intros Hf Ht. unfold target_of in Ht.
  split; intros label labelValue.
  - intros Hsel. unfold GetMetadata, bind, lift. rewrite (Get_found _ _ _ t Hf Ht).
    cbv beta iota. rewrite getSelectorLabel_fetched, Hsel. cbv beta iota zeta.
    now rewrite fetched_Template.
  - intros err Hsel. unfold GetMetadata, bind, lift. rewrite (Get_found _ _ _ t Hf Ht).
    cbv beta iota. now rewrite getSelectorLabel_fetched, Hsel.
Qed.

(** X17.  A read of the target that fails, by an injected failure or because
    the API holds no target, ends every operation that starts with it: each
    returns an error that wraps the API's error under the name and the
    namespace of the target, with no change reported by [HasTargetChanged],
    empty metadata by [GetMetadata], a retriable answer by [IsCanaryReady],
    and has made that one request. *)
Theorem failed_read_of_target_ends_operation cd prefixes w r :
  (exists f, hd None (faults w) = Some f /\ r = fault_reason f) \/
  (hd None (faults w) = None /\ target_of cd w = None /\ r = ReasonNotFound) ->
  let failed fmt :=
    Wrapf fmt [AStr (TargetRefName cd); AStr (CanaryNamespace cd)] (StatusError r) in
  let w' := logged (GetAction (CanaryNamespace cd) (TargetRefName cd)) w in
  ScaleToZero cd w = (Returned (Some (failed "cloneset %s.%s get query error: %w")), w') /\
  ScaleFromZero cd w = (Returned (Some (failed "cloneset %s.%s query error: %w")), w') /\
  Finalize cd w
  = (Returned (Some (Wrapf "ScaleFromZero failed: %w" []
                       (failed "cloneset %s.%s query error: %w"))), w') /\
  Promote cd w = (Returned (Some (failed "cloneset %s.%s get query error: %v")), w') /\
  HasTargetChanged cd w
  = (Returned (false, Some (failed "cloneset %s.%s get query error: %w")), w') /\
  GetMetadata cd w
  = (Returned ("", "", None, Some (failed "cloneset %s.%s get query error: %w")), w') /\
  IsCanaryReady cd w
  = (Returned (true, Some (failed "cloneset %s.%s get query error: %w")), w') /\
  createPrimaryCloneSet cd prefixes w
  = (Returned (Some (failed "cloneset %s.%s get query error: %w")), w') /\
  Initialize cd w
  = (Returned (Some (Wrapf "createPrimaryCloneSet failed: %w" []
                       (failed "cloneset %s.%s get query error: %w"))), w').
Proof.
  intros Hfail failed w'.
  assert (Hget : Get (CanaryNamespace cd) (TargetRefName cd) w
                 = (Returned (inr (StatusError r)), w')).
  { destruct Hfail as [(f & Hf & ->) | (Hf & Ht & ->)].
    - now apply Get_fault.
    - now apply Get_missing. }
  assert (Hc : forall pfx, createPrimaryCloneSet cd pfx w
                 = (Returned (Some (failed "cloneset %s.%s get query error: %w")), w')).
  { intros pfx. unfold createPrimaryCloneSet, bind. now rewrite Hget. }
  assert (Hs : ScaleFromZero cd w
               = (Returned (Some (failed "cloneset %s.%s query error: %w")), w')).
  { unfold ScaleFromZero, bind. now rewrite Hget. }
  split. { unfold ScaleToZero, bind. now rewrite Hget. }
  split; [exact Hs|].
  split. { unfold Finalize, bind. now rewrite Hs. }
  split. { unfold Promote, bind. now rewrite Hget. }
  split. { unfold HasTargetChanged, bind. now rewrite Hget. }
  split. { unfold GetMetadata, bind. now rewrite Hget. }
  split. { unfold IsCanaryReady, bind. now rewrite Hget. }
  split; [apply Hc|]. unfold Initialize, bind. now rewrite Hc.
Qed.

(** X18.  No primary held by the API: [IsPrimaryReady] returns the not-found
    of its read, wrapped under the primary's name; so does [Promote], once
    the target is read and its selector label resolved, and it creates
    nothing, the objects being as they were. *)
Theorem missing_primary_is_reported cd w t label labelValue :
  hd None (faults w) = None ->
  hd None (tl (faults w)) = None ->
  target_of cd w = Some t ->
  getSelectorLabel c t = Returned (label, labelValue, None) ->
  primary_of cd w = None ->
  let missing :=
    Wrapf "cloneset %s.%s get query error: %w"
      [AStr (TargetRefName cd +:+ "-primary"); AStr (CanaryNamespace cd)]
      (StatusError ReasonNotFound) in
  fst (IsPrimaryReady cd w)
  = Returned (Some missing) /\
  fst (Promote cd w) = Returned (Some missing) /\
  objects (snd (Promote cd w)) = objects w /\
  writes (snd (Promote cd w)) = writes w.
Proof.
  intros Hf Hf2 Ht Hsel Hp missing. unfold target_of in Ht. unfold primary_of in Hp.
  split.
  { unfold IsPrimaryReady, bind. now rewrite (Get_missing _ _ _ Hf Hp). }
  set (w1 := copied t (logged (GetAction (CanaryNamespace cd) (TargetRefName cd)) w)).
  assert (Hf1 : hd None (faults w1) = None).
  { unfold w1. now rewrite copied_faults. }
  assert (O1 : objects w1 = objects w) by (unfold w1; now rewrite copied_objects).
  assert (A1 : writes w1 = writes w).
  { unfold writes, w1. now rewrite copied_actions. }
  assert (Hpr : Promote cd w
                = (Returned (Some missing),
                   logged (GetAction (CanaryNamespace cd) (TargetRefName cd +:+ "-primary")) w1)).
  { unfold Promote, bind, lift. rewrite (Get_found _ _ _ t Hf Ht). cbv beta iota. fold w1.
    rewrite getSelectorLabel_fetched, Hsel. cbv beta iota.
    now rewrite (Get_missing _ _ _ Hf1) by (rewrite O1; exact Hp). }
  rewrite Hpr. cbn [fst snd objects logged]. split; [reflexivity|]. split; [exact O1|].
  exact A1.
Qed.

End Reads.

(** ** A rollout from initialization to finalization *)

Lemma quiet_allocated w : quiet w -> quiet (allocated w).
Proof. exact (fun H => H). Qed.

Lemma IsPrimaryReady_finished cd w p :
  quiet w ->
  primary_of cd w = Some p ->
  rollout_finished p ->
  fst (IsPrimaryReady cd w) = Returned None /\
  quiet (snd (IsPrimaryReady cd w)) /\
  objects (snd (IsPrimaryReady cd w)) = objects w.
Proof.
  intros Hq Hp Hfin. unfold primary_of in Hp. unfold IsPrimaryReady, bind.
  rewrite (Get_found _ _ _ p (quiet_hd _ Hq) Hp). cbv beta iota.
  match goal with |- context [isCloneSetReady ?o ?d ?w'] =>
    destruct (isCloneSetReady_decides o d w') as [[_ ->] | [Hnot _]]
  end.
  2: { contradiction Hnot. now apply rollout_finished_fetched. }
  cbv beta iota. cbn [snd]. unfold int32p, bind, alloc, ret. cbv beta iota.
  rewrite fetched_Replicas. unfold copied.
  destruct (Replicas (Spec p)) as [q|];
    cbn [option_map ptr_eq addr next allocated logged fst snd objects faults].
  - assert (Nat.eqb (next w) (S (next w)) = false) as -> by (apply Nat.eqb_neq; lia).
    cbn [fst snd objects]. split; [reflexivity|]. split; [|reflexivity].
    now apply quiet_allocated, quiet_allocated, quiet_logged.
  - split; [reflexivity|]. split; [|reflexivity].
    now apply quiet_allocated, quiet_logged.
Qed.

Section Rollout.

Variable makeAnnotations : gomap -> gomap + error.
Variable includeLabelsByPrefix : gomap -> list string -> gomap.
Variable canaryAPIVersion : string.
Variable CanaryKind : string.
Variable c : CloneSetController.

Local Abbreviation createPrimaryCloneSet :=
  (createPrimaryCloneSet makeAnnotations includeLabelsByPrefix canaryAPIVersion CanaryKind c).
Local Abbreviation Initialize :=
  (Initialize makeAnnotations includeLabelsByPrefix canaryAPIVersion CanaryKind c).

Lemma createPrimaryCloneSet_existing_ok cd prefixes w t p label labelValue :
  quiet w ->
  target_of cd w = Some t ->
  primary_of cd w = Some p ->
  Type_ (UpdateStrategy (Spec t)) = "" \/
    Type_ (UpdateStrategy (Spec t)) = RecreateCloneSetUpdateStrategyType ->
  getSelectorLabel c t = Returned (label, labelValue, None) ->
  fst (createPrimaryCloneSet cd prefixes w) = Returned None /\
  quiet (snd (createPrimaryCloneSet cd prefixes w)) /\
  objects (snd (createPrimaryCloneSet cd prefixes w)) = objects w.
Proof.
  intros Hq Ht Hp Hs Hsel. unfold target_of in Ht. unfold primary_of in Hp.
  set (w1 := copied t (logged (GetAction (CanaryNamespace cd) (TargetRefName cd)) w)).
  assert (Q1 : quiet w1) by now apply quiet_after_get.
  assert (O1 : objects w1 = objects w) by (unfold w1; now rewrite copied_objects).
  unfold createPrimaryCloneSet, bind.
  rewrite (Get_found _ _ _ t (quiet_hd _ Hq) Ht). cbv beta iota zeta. fold w1.
  rewrite fetched_UpdateStrategy.
  replace (negb (String.eqb (Type_ (UpdateStrategy (Spec t))) "")
           && negb (String.eqb (Type_ (UpdateStrategy (Spec t)))
                      RecreateCloneSetUpdateStrategyType)) with false
    by (destruct Hs as [-> | ->]; reflexivity).
  unfold lift. rewrite getSelectorLabel_fetched, Hsel. cbv beta iota.
  rewrite (Get_found _ _ _ p (quiet_hd _ Q1)) by (rewrite O1; exact Hp).
  cbv beta iota. cbn [IsNotFound]. unfold ret. cbn [fst snd].
  split; [reflexivity|]. split; [now apply quiet_after_get|].
  now rewrite copied_objects.
Qed.

(** X16.  A rollout on a target and a primary that the API holds, with no
    request failing, the target's strategy accepted and its selector label
    resolved, in the initial phase with analysis skipped or the primary's
    rollout finished: [Initialize] returns nil and leaves the target with the
    marker added to its node-selector entries; [Finalize] after it returns nil
    and leaves the target with those entries, the marker key deleted; the
    primary is throughout the one the API held. *)
Theorem Finalize_after_Initialize cd w t p label labelValue :
  quiet w ->
  target_of cd w = Some t ->
  primary_of cd w = Some p ->
  Type_ (UpdateStrategy (Spec t)) = "" \/
    Type_ (UpdateStrategy (Spec t)) = RecreateCloneSetUpdateStrategyType ->
  getSelectorLabel c t = Returned (label, labelValue, None) ->
  initial_phase cd = true ->
  SkipAnalysis cd = true \/ rollout_finished p ->
  let w1 := snd (Initialize cd w) in
  let w2 := snd (Finalize cd w1) in
  fst (Initialize cd w) = Returned None /\
  fst (Finalize cd w1) = Returned None /\
  node_selector <$> target_of cd w1
    = Some (Some (<[ scaleToZeroKey := "true" ]> (go_entries (node_selector t)))) /\
  node_selector <$> target_of cd w2
    = Some (Some (delete scaleToZeroKey (go_entries (node_selector t)))) /\
  primary_of cd w1 = Some p /\
  primary_of cd w2 = Some p.
Proof.
  intros Hq Ht Hp Hs Hsel Hphase Hready.
  destruct (createPrimaryCloneSet_existing_ok cd (includeLabelPrefix c) w t p label labelValue
              Hq Ht Hp Hs Hsel) as (Rc & Qc & Oc).
  assert (Hnp : same_object (CanaryNamespace cd) (TargetRefName cd +:+ "-primary") t = false).
  { unfold target_of in Ht. apply lookup_object_key in Ht as [_ Hn].
    unfold same_object. rewrite Hn.
    assert (String.eqb (TargetRefName cd) (TargetRefName cd +:+ "-primary") = false) as ->.
    { apply String.eqb_neq. intros E. symmetry in E. now apply primary_name_differs in E. }
    apply andb_false_r. }
  assert (Hinit : exists wa,
    quiet wa /\ objects wa = objects w /\
    Initialize cd w
    = (match fst (ScaleToZero cd wa) with
       | Returned (Some err) => Returned (Some (Wrapf "ScaleToZero failed: %w" [] err))
       | Returned None => Returned None
       | Panicked => Panicked
       end, snd (ScaleToZero cd wa))).
  { unfold Initialize, bind. rewrite Hphase.
    destruct (createPrimaryCloneSet cd (includeLabelPrefix c) w) as [[[err|]|] wc];
      cbn [fst snd] in Rc, Qc, Oc; try discriminate.
    destruct (SkipAnalysis cd) eqn:Hskip; cbn [negb].
    - exists wc. split; [exact Qc|]. split; [exact Oc|]. unfold ret at 1. cbv beta iota.
      now destruct (ScaleToZero cd wc) as [[[err|]|] ws].
    - destruct Hready as [Hr | Hr]; [discriminate Hr|].
      assert (Hpc : primary_of cd wc = Some p) by (unfold primary_of; rewrite Oc; exact Hp).
      destruct (IsPrimaryReady_finished cd wc p Qc Hpc Hr) as (Rr & Qr & Or).
      destruct (IsPrimaryReady cd wc) as [[[err|]|] wr]; cbn [fst snd] in Rr, Qr, Or;
        try discriminate.
      exists wr. split; [exact Qr|]. split; [now rewrite Or|].
      now destruct (ScaleToZero cd wr) as [[[err|]|] ws]. }
  destruct Hinit as (wa & Qa & Oa & Hinit).
  assert (Hta : target_of cd wa = Some t) by (unfold target_of; rewrite Oa; exact Ht).
  destruct (ScaleToZero_spec cd wa t Qa Hta) as (R1 & Q1 & t1 & T1 & S1 & _ & _ & _ & F1).
  intros w1 w2. subst w1 w2. rewrite Hinit, R1. cbn [fst snd].
  destruct (ScaleFromZero_spec cd _ t1 Q1 T1) as (R2 & Q2 & t2 & T2 & S2 & _ & _ & _ & F2).
  assert (Hnp1 : same_object (CanaryNamespace cd) (TargetRefName cd +:+ "-primary") t1 = false).
  { unfold target_of in T1. apply lookup_object_key in T1 as [_ Hn].
    unfold same_object. rewrite Hn.
    assert (String.eqb (TargetRefName cd) (TargetRefName cd +:+ "-primary") = false) as ->.
    { apply String.eqb_neq. intros E. symmetry in E. now apply primary_name_differs in E. }
    apply andb_false_r. }
  assert (Hfin : Finalize cd (snd (ScaleToZero cd wa))
                 = (Returned None, snd (ScaleFromZero cd (snd (ScaleToZero cd wa))))).
  { unfold Finalize, bind.
    destruct (ScaleFromZero cd (snd (ScaleToZero cd wa))) as [[[err|]|] wf];
      cbn [fst snd] in R2; try discriminate. reflexivity. }
  rewrite Hfin. cbn [fst snd].
  split; [reflexivity|]. split; [reflexivity|].
  rewrite T1, T2. cbn [fmap option_fmap option_map]. rewrite S2, S1. cbn [go_delete].
  rewrite delete_insert_eq.
  split; [reflexivity|]. split; [reflexivity|].
  unfold primary_of. rewrite F2 by exact Hnp1. rewrite F1 by exact Hnp.
  rewrite Oa. now split.
Qed.

End Rollout.

(** ** The further properties on the demo cluster *)

Lemma isCloneSetReady_nil_iff_witness :
  rollout_finished Demo.primary /\
  fst (isCloneSetReady Demo.primary 60 (Demo.cluster [] [])) = Returned (true, None).
Proof.
  assert (H : fst (isCloneSetReady Demo.primary 60 (Demo.cluster [] [])) = Returned (true, None))
    by reflexivity.
  split; [|exact H].
  exact (proj1 (isCloneSetReady_nil_iff Demo.primary 60 (Demo.cluster [] [])) H).
Defined.

Lemma IsCanaryReady_nil_iff_witness :
  let cd := Demo.canary "Progressing" false in
  let w := Demo.cluster [Demo.primary; Demo.target] [] in
  fst (IsCanaryReady cd w) = Returned (true, Some
    (Wrapf "canary cloneset %s.%s not ready: %w" [AStr "demo"; AStr "ns"]
       (Errorf "waiting for rollout to finish: %d out of %d new replicas have been updated"
          [AInt 0; AInt 2]))) /\
  ~ (exists t, target_of cd w = Some t /\ rollout_finished t).
Proof.
  intros cd w. split; [reflexivity|]. intros H.
  assert (Hn : fst (IsCanaryReady cd w) = Returned (true, None)).
  { apply (proj2 (IsCanaryReady_nil_iff cd w)). split; [reflexivity | exact H]. }
  discriminate Hn.
Defined.


Lemma Initialize_nil_has_scaled_the_target_witness :
  let cd := Demo.canary "" true in
  let w := Demo.cluster [Demo.target; Demo.primary] [] in
  initial_phase cd = true /\
  exists t1,
    target_of cd (snd (Initialize Demo.makeAnnotations Demo.includeLabelsByPrefix
                         "flagger.app/v1beta1" "Canary" Demo.controller cd w)) = Some t1 /\
    go_lookup scaleToZeroKey (node_selector t1) = Some "true".
Proof.
  intros cd w. split; [reflexivity|].
  apply (Initialize_nil_has_scaled_the_target Demo.makeAnnotations Demo.includeLabelsByPrefix
           "flagger.app/v1beta1" "Canary" Demo.controller cd w); reflexivity.
Defined.

Lemma createPrimaryCloneSet_creates_witness :
  let cd := Demo.canary "" false in
  let w := Demo.cluster [Demo.target] [] in
  primary_of cd w = None /\
  exists p,
    fst (createPrimaryCloneSet Demo.makeAnnotations Demo.includeLabelsByPrefix
           "flagger.app/v1beta1" "Canary" Demo.controller cd [] w) = Returned None /\
    objects (snd (createPrimaryCloneSet Demo.makeAnnotations Demo.includeLabelsByPrefix
                    "flagger.app/v1beta1" "Canary" Demo.controller cd [] w))
      = [Demo.target; p] /\
    Name (Meta p) = "demo-primary" /\
    Replicas (Spec p) = None.
Proof.
  intros cd w. split; [reflexivity|].
  destruct (createPrimaryCloneSet_creates Demo.makeAnnotations Demo.includeLabelsByPrefix
              "flagger.app/v1beta1" "Canary" Demo.controller cd [] w Demo.target
              "app" "demo" [] (Some (<[ "flagger-id" := "1" ]> ∅)))
    as (p & H1 & H2 & _ & _ & H3 & _ & _ & _ & _ & H4 & _);
    try reflexivity; [constructor | now left |].
  exists p. split; [exact H1|]. split; [exact H2|]. split; [exact H3 | exact H4].
Defined.

Lemma Promote_keeps_the_primary_witness :
  let cd := Demo.canary "Promoting" false in
  let w := Demo.cluster [Demo.scaled_target; Demo.primary] [] in
  exists p',
    fst (Promote Demo.makeAnnotations Demo.controller cd w) = Returned None /\
    primary_of cd (snd (Promote Demo.makeAnnotations Demo.controller cd w)) = Some p' /\
    Meta p' = Meta Demo.primary /\
    Selector (Spec p') = Selector (Spec Demo.primary).
Proof.
  intros cd w.
  destruct (Promote_keeps_the_primary Demo.makeAnnotations Demo.controller cd w
              Demo.scaled_target Demo.primary "app" "demo" []
              (Some (<[ "flagger-id" := "1" ]> ∅)))
    as (p' & H1 & H2 & H3 & _ & H4 & _); try reflexivity; [constructor|].
  exists p'. split; [exact H1|]. split; [exact H2|]. split; [exact H3 | exact H4].
Defined.

Lemma operations_panic_without_selector_witness :
  let cd := Demo.canary "Promoting" false in
  let w := Demo.cluster [no_selector_target; Demo.primary] [] in
  Selector (Spec no_selector_target) = None /\
  fst (GetMetadata (fun _ _ => ∅) Demo.controller cd w) = Panicked /\
  fst (Promote Demo.makeAnnotations Demo.controller cd w) = Panicked.
Proof.
  intros cd w. split; [reflexivity|].
  destruct (operations_panic_without_selector Demo.makeAnnotations Demo.includeLabelsByPrefix
              (fun _ _ => ∅) "flagger.app/v1beta1" "Canary" Demo.controller cd [] w
              no_selector_target eq_refl eq_refl eq_refl) as (H1 & H2 & _); [discriminate|].
  split; [exact (f_equal fst H1) | exact (f_equal fst H2)].
Defined.

Lemma GetMetadata_result_witness :
  let cd := Demo.canary "Progressing" false in
  let w := Demo.cluster [Demo.target; Demo.primary] [] in
  target_of cd w = Some Demo.target /\
  fst (GetMetadata (fun _ _ => ∅) Demo.controller cd w) = Returned ("app", "demo", None, None).
Proof.
  intros cd w. split; [reflexivity|].
  exact (proj1 (GetMetadata_result (fun _ _ => ∅) Demo.controller cd w Demo.target
                  eq_refl eq_refl) "app" "demo" eq_refl).
Defined.

Lemma Finalize_after_Initialize_witness :
  let cd := Demo.canary "Initializing" true in
  let w := Demo.cluster [Demo.target; Demo.primary] [] in
  let w1 := snd (Initialize Demo.makeAnnotations Demo.includeLabelsByPrefix
                   "flagger.app/v1beta1" "Canary" Demo.controller cd w) in
  initial_phase cd = true /\
  fst (Initialize Demo.makeAnnotations Demo.includeLabelsByPrefix
         "flagger.app/v1beta1" "Canary" Demo.controller cd w) = Returned None /\
  fst (Finalize cd w1) = Returned None /\
  primary_of cd (snd (Finalize cd w1)) = Some Demo.primary.
Proof.
  intros cd w w1. split; [reflexivity|].
  destruct (Finalize_after_Initialize Demo.makeAnnotations Demo.includeLabelsByPrefix
              "flagger.app/v1beta1" "Canary" Demo.controller cd w Demo.target Demo.primary
              "app" "demo")
    as (H1 & H2 & _ & _ & _ & H3); try reflexivity;
    [constructor | now left | now left |].
  split; [exact H1|]. split; [exact H2 | exact H3].
Defined.

Lemma failed_read_of_target_ends_operation_witness :
  let cd := Demo.canary "Progressing" false in
  let w := Demo.cluster [Demo.target] [Some FConflict] in
  hd None (faults w) = Some FConflict /\
  ScaleToZero cd w
  = (Returned (Some (Wrapf "cloneset %s.%s get query error: %w" [AStr "demo"; AStr "ns"]
                       (StatusError ReasonConflict))),
     logged (GetAction "ns" "demo") w).
Proof.
  intros cd w. split; [reflexivity|].
  apply (failed_read_of_target_ends_operation Demo.makeAnnotations Demo.includeLabelsByPrefix
           (fun _ _ => ∅) Demo.computeHash "flagger.app/v1beta1" "Canary" Demo.controller
           cd [] w ReasonConflict).
  left. exists FConflict. split; reflexivity.
Defined.

Lemma missing_primary_is_reported_witness :
  let cd := Demo.canary "Promoting" false in
  let w := Demo.cluster [Demo.target] [] in
  primary_of cd w = None /\
  fst (Promote Demo.makeAnnotations Demo.controller cd w)
  = Returned (Some (Wrapf "cloneset %s.%s get query error: %w"
                      [AStr "demo-primary"; AStr "ns"] (StatusError ReasonNotFound))).
Proof.
  intros cd w. split; [reflexivity|].
  exact (proj1 (proj2 (missing_primary_is_reported Demo.makeAnnotations Demo.controller cd w
                         Demo.target "app" "demo" eq_refl eq_refl eq_refl eq_refl eq_refl))).
Defined.
